(** * Traffic-speed prediction service: feature preprocessing and model lifecycle

    A shallow embedding of [app/preprocessing.py], [app/model.py] and the
    query of [app/database.py], with the properties the design document
    states about them.

    Numbers.  The cells of a frame and the numbers the libraries exchange
    are modelled by exact rationals ([Q]); pandas' missing value ([None] /
    [NaN]) is the separate constructor [VNone].  The congestion rule divides
    and compares thresholds, so it is embedded on IEEE binary64 doubles, the
    arithmetic CPython runs; [py_float] takes a number to its double.

    Libraries.  scikit-learn's [StandardScaler], the regressors and the
    data split are not part of the repository: they are the operations of
    the class [Libraries], and every statement about the service holds for
    every instance of it.  An exception raised inside a library reaches the
    caller as a [LibraryError].  A joblib file holds the object that was
    dumped to it; the table [ml_features] and the clock are fields of the
    state [World]. *)

From Stdlib Require Import QArith Floats.
From stdpp Require Import gmap strings list pretty.

Set Default Proof Using "Type".
(* Decimal literals such as 0.7 denote the nearest double, as in Python. *)
Set Warnings "-inexact-float".

(** ** Python values, exceptions and results *)

(** A value of a feature record: null, boolean or number. *)
Inductive pyval : Type :=
| VNone
| VBool (b : bool)
| VNum (q : Q).

(** A FeatureRecord is a Python [dict] from names to values. *)
Abbreviation record := (gmap string pyval).

(** The exceptions the modelled code raises itself (or the interpreter raises
    for it), and one constructor for whatever is raised inside a library. *)
Inductive exn : Type :=
| ValueError (msg : string)
| TypeError (msg : string)
| KeyError (key : string)
| IndexError (msg : string)
| AttributeError (msg : string)
| FileNotFoundError (msg : string)
| LibraryError (tag : string).

Inductive result (A : Type) : Type :=
| Ok (a : A)
| Raise (e : exn).
Arguments Ok {A} a.
Arguments Raise {A} e.

Definition rbind {A B : Type} (r : result A) (k : A -> result B) : result B :=
  match r with
  | Ok a => k a
  | Raise e => Raise e
  end.

(** [for x in xs: acc = body(acc, x)] where the body may raise. *)
Fixpoint for_each {A B : Type} (body : A -> B -> result A) (xs : list B) (acc : A)
  : result A :=
  match xs with
  | [] => Ok acc
  | x :: xs' => rbind (body acc x) (for_each body xs')
  end.

(** The outcome of a library call, and the exception the caller sees. *)
Inductive outcome (A : Type) : Type :=
| Done (a : A)
| Failed (tag : string).
Arguments Done {A} a.
Arguments Failed {A} tag.

Definition lib {A : Type} (o : outcome A) : result A :=
  match o with
  | Done a => Ok a
  | Failed tag => Raise (LibraryError tag)
  end.

Fixpoint map_result {A B : Type} (f : A -> result B) (xs : list A) : result (list B) :=
  match xs with
  | [] => Ok []
  | x :: xs' => rbind (f x) (fun y => rbind (map_result f xs') (fun ys => Ok (y :: ys)))
  end.

(** ** The pandas operations the preprocessor uses *)

(** A column.  A cell is null when it is [VNone]. *)
Abbreviation Series := (list pyval).

(** A DataFrame: the length of its index and its named columns, in order. *)
Record DataFrame : Type := {
  index : nat;
  columns : list (string * Series)
}.

(** A 2-D numpy array, row-major. *)
Abbreviation ndarray := (list (list pyval)).

Definition isna (v : pyval) : bool :=
  match v with
  | VNone => true
  | _ => false
  end.

(** [df.get(col)] / [col in df.columns]. *)
Fixpoint get_col (col : string) (cs : list (string * Series)) : option Series :=
  match cs with
  | [] => None
  | (k, s) :: cs' => if String.eqb k col then Some s else get_col col cs'
  end.

(** [df[col] = s]: replaces the column in place, or appends a new one. *)
Fixpoint set_col (col : string) (s : Series) (cs : list (string * Series))
  : list (string * Series) :=
  match cs with
  | [] => [(col, s)]
  | (k, s') :: cs' =>
      if String.eqb k col then (k, s) :: cs' else (k, s') :: set_col col s cs'
  end.

Definition df_get (col : string) (df : DataFrame) : option Series :=
  get_col col (columns df).

Definition df_set (col : string) (s : Series) (df : DataFrame) : DataFrame :=
  {| index := index df; columns := set_col col s (columns df) |}.

(** The keys of a batch, each once. *)
Definition batch_keys (data : list record) : list string :=
  remove_dups (data ≫= (fun r => (map_to_list r).*1)).

(** The column of [col]: one cell per record, null where the record has no
    such key. *)
Definition cells_of (col : string) (data : list record) : Series :=
  (fun r => default VNone (r !! col)) <$> data.

(** [pd.DataFrame(data)] for a list of dicts: one row per dict, one column
    per key that occurs in some dict. *)
Definition pd_DataFrame (data : list record) : DataFrame :=
  {| index := length data;
     columns := (fun k => (k, cells_of k data)) <$> batch_keys data |}.

(** [int(v)]: truncation toward zero; a null cell cannot be converted
    (pandas raises a [TypeError] for [None] and a [ValueError] for [NaN];
    the model has one null and one exception for it). *)
Definition py_int (v : pyval) : result pyval :=
  match v with
  | VNone => Raise (TypeError "cannot convert a missing value to int")
  | VBool b => Ok (VNum (if b then 1 else 0))
  | VNum q => Ok (VNum (inject_Z (Z.quot (Qnum q) (Zpos (Qden q)))))
  end.

(** [series.astype(int)]. *)
Definition astype_int (s : Series) : result Series := map_result py_int s.

(** [series.fillna(value)]. *)
Definition fillna (value : pyval) (s : Series) : Series :=
  (fun v => if isna v then value else v) <$> s.

(** The numeric reading of a cell, as a reduction sees it ([True] is 1). *)
Definition to_num (v : pyval) : option Q :=
  match v with
  | VNone => None
  | VBool b => Some (if b then 1 else 0)%Q
  | VNum q => Some q
  end.

Fixpoint insert_sorted (x : Q) (xs : list Q) : list Q :=
  match xs with
  | [] => [x]
  | y :: ys => if Qle_bool x y then x :: y :: ys else y :: insert_sorted x ys
  end.

Definition sort_Q (xs : list Q) : list Q := foldr insert_sorted [] xs.

(** [series.median()]: null cells are skipped; the middle value, or the mean
    of the two middle values; [NaN] when nothing is left. *)
Definition median (s : Series) : pyval :=
  let xs := sort_Q (omap to_num s) in
  let n := length xs in
  if Nat.eqb n 0 then VNone
  else if Nat.even n
       then VNum ((nth (n / 2 - 1) xs 0%Q + nth (n / 2) xs 0%Q) / 2)
       else VNum (nth (n / 2) xs 0%Q).

(** [df[names]]: the named columns, in the order asked for. *)
Definition df_select (names : list string) (df : DataFrame) : result DataFrame :=
  rbind
    (map_result
       (fun k => match df_get k df with
                 | Some s => Ok (k, s)
                 | None => Raise (KeyError k)
                 end) names)
    (fun cs => Ok {| index := index df; columns := cs |}).

(** [df.values]: the cells, row by row. *)
Definition df_values (df : DataFrame) : ndarray :=
  (fun i => (fun c => nth i (snd c) VNone) <$> columns df) <$> seq 0 (index df).

(** ** preprocessing.py: FeaturePreprocessor, the part without state *)

Definition FEATURE_ORDER : list string :=
  [ "hour_of_day"; "day_of_week"; "day_of_month"; "month";
    "is_rush_hour"; "is_weekend";
    "avg_speed_historical"; "avg_congestion_level_encoded";
    "traffic_std_deviation";
    "temperature"; "humidity"; "wind_speed"; "rain_probability";
    "weather_condition_encoded"; "is_raining";
    "event_nearby"; "event_type_encoded"; "event_distance_km";
    "road_type_encoded"; "lanes"; "max_speed_kmh";
    "arroyo_nearby"; "arroyo_risk_level_encoded"; "arroyo_distance_km" ].

Definition bool_columns : list string :=
  [ "is_rush_hour"; "is_weekend"; "is_raining"; "event_nearby"; "arroyo_nearby" ].

(** The features with a constant default, in the order of the dict literal
    of [_fill_missing_values] (all of it but its first entry). *)
Definition fixed_fills : list (string * pyval) :=
  [ ("avg_congestion_level_encoded", VNum 0.33);
    ("traffic_std_deviation", VNum 0);
    ("temperature", VNum 30);
    ("humidity", VNum 75);
    ("wind_speed", VNum 15);
    ("rain_probability", VNum 20);
    ("weather_condition_encoded", VNum 1);
    ("event_type_encoded", VNum 0);
    ("event_distance_km", VNum 10);
    ("road_type_encoded", VNum 2);
    ("lanes", VNum 2);
    ("max_speed_kmh", VNum 60);
    ("arroyo_risk_level_encoded", VNum 0);
    ("arroyo_distance_km", VNum 5) ].

(** The dict [numeric_fills], built once from the frame it is given. *)
Definition numeric_fills (df : DataFrame) : list (string * pyval) :=
  ("avg_speed_historical",
   median (default [VNum 50] (df_get "avg_speed_historical" df)))
  :: fixed_fills.

Definition fill_step (df : DataFrame) (entry : string * pyval) : DataFrame :=
  match df_get entry.1 df with
  | Some s => df_set entry.1 (fillna entry.2 s) df
  | None => df
  end.

Definition _fill_missing_values (df : DataFrame) : DataFrame :=
  foldl fill_step df (numeric_fills df).

Definition bool_step (df : DataFrame) (col : string) : result DataFrame :=
  match df_get col df with
  | Some s => rbind (astype_int s) (fun s' => Ok (df_set col s' df))
  | None => Ok df
  end.

Definition ensure_step (df : DataFrame) (feature : string) : DataFrame :=
  match df_get feature df with
  | Some _ => df
  | None => df_set feature (replicate (index df) (VNum 0)) df
  end.

Definition prepare_features (data : list record) : result DataFrame :=
  let df := pd_DataFrame data in
  rbind (for_each bool_step bool_columns df) (fun df =>
  let df := _fill_missing_values df in
  let df := foldl ensure_step df FEATURE_ORDER in
  df_select FEATURE_ORDER df).

(** [encode_congestion_level], a static method.  The division and the
    comparisons are those of binary64, as Python evaluates them on a [float]
    speed and an [int] or [float] maximum. *)
Definition encode_congestion_level (speed_kmh max_speed_kmh : float) : string :=
  let max_speed_kmh :=
    if PrimFloat.eqb max_speed_kmh 0%float then 60%float else max_speed_kmh in
  let speed_ratio := PrimFloat.div speed_kmh max_speed_kmh in
  if PrimFloat.leb 0.7%float speed_ratio then "low"
  else if PrimFloat.leb 0.5%float speed_ratio then "moderate"
  else if PrimFloat.leb 0.3%float speed_ratio then "high"
  else "severe".

(** The double nearest to an integer. *)
Definition float_of_Z (z : Z) : float :=
  SF2Prim (binary_normalize prec emax z 0 false).

(** [float(x)]: the double of a number of the model, the correctly rounded
    quotient when numerator and denominator are below 2^53. *)
Definition py_float (q : Q) : float :=
  PrimFloat.div (float_of_Z (Qnum q)) (float_of_Z (Z.pos (Qden q))).

Definition get_feature_names : list string := FEATURE_ORDER.

Arguments pd_DataFrame : simpl never.
Arguments prepare_features : simpl never.
Arguments _fill_missing_values : simpl never.
Arguments df_values : simpl never.
Arguments median : simpl never.

(** ** Notions the statements use *)

(** The batch has the feature: some record has the key. *)
Definition occurs (f : string) (data : list record) : Prop :=
  exists r, r ∈ data /\ is_Some (r !! f).

(** The value of a feature in a record, null when the key is missing. *)
Definition value (r : record) (f : string) : pyval := default VNone (r !! f).

(** The keys of the dict [numeric_fills]. *)
Definition fill_keys : list string := "avg_speed_historical" :: fixed_fills.*1.

(** The features that have neither a conversion nor a default. *)
Definition unfilled_columns : list string :=
  filter (fun f => f ∉ bool_columns ++ fill_keys) FEATURE_ORDER.

(** What the loops leave in the column of a feature the batch has. *)
Definition prepared (data : list record) (f : string) (s : Series) : Prop :=
  (f ∈ bool_columns -> astype_int (cells_of f data) = Ok s) /\
  (forall d, (f, d) ∈ fixed_fills -> s = fillna d (cells_of f data)) /\
  (f = "avg_speed_historical" ->
     s = fillna (median (cells_of f data)) (cells_of f data)) /\
  (f ∈ unfilled_columns -> s = cells_of f data).

(** ** State and exceptions

    A method runs on a state [S] (its [self], the module-level globals, the
    files) and either returns or raises; the state it leaves is kept in both
    cases, as a Python object keeps the assignments made before a [raise]. *)

Definition ST (S A : Type) : Type := S -> result A * S.

Definition ret {S A : Type} (a : A) : ST S A := fun s => (Ok a, s).

Definition raise {S A : Type} (e : exn) : ST S A := fun s => (Raise e, s).

Definition bind {S A B : Type} (c : ST S A) (k : A -> ST S B) : ST S B :=
  fun s => match c s with
           | (Ok a, s') => k a s'
           | (Raise e, s') => (Raise e, s')
           end.

Definition get {S : Type} : ST S S := fun s => (Ok s, s).

Definition put {S : Type} (s : S) : ST S unit := fun _ => (Ok tt, s).

Definition modify {S : Type} (f : S -> S) : ST S unit := fun s => (Ok tt, f s).

Definition lift {S A : Type} (r : result A) : ST S A := fun s => (r, s).

(** Run a computation on a part [T] of the state [S]. *)
Definition zoom {S T A : Type} (proj : S -> T) (upd : T -> S -> S) (c : ST T A)
  : ST S A :=
  fun s => let (r, t) := c (proj s) in (r, upd t s).

Declare Scope st_scope.
Delimit Scope st_scope with st.
Notation "'let*' x ':=' c 'in' k" := (bind c (fun x => k))
  (at level 10, x name, c at level 100, k at level 200, only parsing) : st_scope.

(** [a or b] on strings: the empty string and [None] are falsy. *)
Definition str_or (a : option string) (b : string) : string :=
  match a with
  | Some s => if String.eqb s "" then b else s
  | None => b
  end.

(** A value of a hyperparameter dict. *)
Inductive param : Type :=
| PInt (z : Z)
| PNum (q : Q)
| PStr (s : string).

(** config.py: the settings the modelled code reads. *)
Record Settings : Type := {
  s_model_type : string;
  s_model_path : string;
  s_feature_scaler_path : string;
  s_train_test_split : Q;
  s_random_state : Z;
  s_n_estimators : Z;
  s_max_depth : Z
}.

Definition default_settings : Settings :=
  {| s_model_type := "lightgbm";
     s_model_path := "./models/traffic_model.pkl";
     s_feature_scaler_path := "./models/scaler.pkl";
     s_train_test_split := 0.2;
     s_random_state := 42;
     s_n_estimators := 100;
     s_max_depth := 10 |}.

(** database.py: the columns [fetch_training_data] selects. *)
Definition selected_columns : list string :=
  [ "road_id"; "timestamp";
    "hour_of_day"; "day_of_week"; "day_of_month"; "month";
    "is_rush_hour"; "is_weekend";
    "avg_speed_historical"; "avg_congestion_level_encoded";
    "traffic_std_deviation";
    "temperature"; "humidity"; "wind_speed"; "rain_probability";
    "weather_condition_encoded"; "is_raining";
    "event_nearby"; "event_type_encoded"; "event_distance_km";
    "zone_id"; "road_type_encoded"; "lanes"; "max_speed_kmh";
    "arroyo_nearby"; "arroyo_risk_level_encoded"; "arroyo_distance_km";
    "target_speed_kmh"; "target_congestion_level" ].

(** A result row: a dict with every selected column, null where the table
    has NULL. *)
Definition select_row (row : record) : record :=
  list_to_map ((fun k => (k, default VNone (row !! k))) <$> selected_columns).

(** The rows the query of [fetch_training_data] returns from a table whose
    rows are kept newest first. *)
Definition training_rows (limit : option nat) (table : list record) : list record :=
  let rows :=
    select_row <$>
      filter (fun row => isna (value row "target_speed_kmh") = false) table in
  match limit with
  | Some (S n) => take (S n) rows
  | _ => rows
  end.

(** [np.maximum(predictions, 0)], on one entry. *)
Definition np_maximum_0 (p : Q) : Q := if Qle_bool 0 p then p else 0%Q.

(** [dict(pairs)]: a later pair replaces an earlier one with the same key. *)
Definition py_dict {A : Type} (pairs : list (string * A)) : gmap string A :=
  foldl (fun m kv => <[kv.1 := kv.2]> m) ∅ pairs.

(** ** The service: preprocessing.py (stateful part), database.py, model.py *)

(** *** What the libraries provide

    [Scaler] is a scikit-learn [StandardScaler] object, [Estimator] a
    regressor object (LightGBM, random forest or XGBoost), [Metrics] the
    dict of the four evaluation scores.  A call that updates its object in
    place returns the updated object, also when it raises. *)
Class Libraries : Type := {
  Scaler : Type;
  Estimator : Type;
  Metrics : Type;
  (** [StandardScaler()] *)
  StandardScaler : Scaler;
  (** [scaler.fit(X)] *)
  scaler_fit : Scaler -> DataFrame -> outcome unit * Scaler;
  (** [scaler.transform(X)]; it reads the scaler and leaves it as it is. *)
  scaler_transform : Scaler -> DataFrame -> outcome ndarray;
  (** The constructor of the regressor of a kind, applied to the parameters. *)
  make_estimator : string -> gmap string param -> outcome Estimator;
  (** [train_test_split(X, y, test_size=.., random_state=..)] *)
  train_test_split :
    ndarray -> Series -> Q -> Z -> outcome ((ndarray * ndarray) * (Series * Series));
  (** [estimator.fit(X, y)] *)
  est_fit : Estimator -> ndarray -> Series -> outcome unit * Estimator;
  (** [estimator.predict(X)]: one number per row. *)
  est_predict : Estimator -> ndarray -> outcome (list Q);
  (** [estimator.feature_importances_], when the estimator has the attribute. *)
  feature_importances_ : Estimator -> option (list Q);
  (** The four scores of [train]: MAE, RMSE, R2 and MAPE of a prediction. *)
  evaluate : Series -> list Q -> outcome Metrics
}.

Section Service.

Local Open Scope st_scope.

Context `{Libraries}.

(** The module-level [settings]. *)
Variable settings : Settings.

(** *** Objects and globals *)

(** The dict [model_data] that [save] pickles; a field is [None] when the
    dict has no such key. *)
Record model_data : Type := {
  md_model : option Estimator;
  md_model_type : option string;
  md_model_version : option string;
  md_metrics : option Metrics;
  md_trained_at : option nat;
  md_training_samples : option nat;
  md_test_samples : option nat
}.

(** What a joblib file holds, and so what [joblib.load] returns. *)
Inductive pyobject : Type :=
| ObjScaler (sc : Scaler)
| ObjModelData (md : model_data).

Record FeaturePreprocessor : Type := {
  scaler : pyobject;
  is_fitted : bool
}.

Record TrafficPredictionModel : Type := {
  model_type : string;
  model : option Estimator;
  metrics : option Metrics;
  trained_at : option nat;
  training_samples : nat;
  test_samples : nat;
  model_version : string
}.

Record ModelManager : Type := {
  current_model : option TrafficPredictionModel
}.

(** The globals of the process and what lies outside it: the module-level
    [preprocessor], the files, the rows of table [ml_features] (newest
    first) and the clock. *)
Record World : Type := {
  preprocessor : FeaturePreprocessor;
  disk : gmap string pyobject;
  ml_features : list record;
  clock : nat
}.

Definition set_preprocessor (p : FeaturePreprocessor) (w : World) : World :=
  {| preprocessor := p; disk := disk w; ml_features := ml_features w; clock := clock w |}.

Definition set_disk (d : gmap string pyobject) (w : World) : World :=
  {| preprocessor := preprocessor w; disk := d; ml_features := ml_features w;
     clock := clock w |}.

Definition on_preprocessor {A : Type} (c : ST FeaturePreprocessor A) : ST World A :=
  zoom preprocessor set_preprocessor c.

Definition on_self {Self A : Type} (c : ST Self A) : ST (Self * World) A :=
  zoom fst (fun self s => (self, s.2)) c.

Definition on_world {Self A : Type} (c : ST World A) : ST (Self * World) A :=
  zoom snd (fun w s => (s.1, w)) c.

(** [datetime.now()] *)
Definition datetime_now : ST World nat :=
  fun w => (Ok (clock w),
            {| preprocessor := preprocessor w; disk := disk w;
               ml_features := ml_features w; clock := S (clock w) |}).

(** [Path(path).exists()], [joblib.load(path)], [joblib.dump(obj, path)] *)
Definition path_exists (path : string) : ST World bool :=
  fun w => (Ok (bool_decide (is_Some (disk w !! path))), w).

Definition joblib_load (path : string) : ST World pyobject :=
  fun w => match disk w !! path with
           | Some obj => (Ok obj, w)
           | None => (Raise (FileNotFoundError path), w)
           end.

Definition joblib_dump (obj : pyobject) (path : string) : ST World unit :=
  modify (fun w => set_disk (<[path := obj]> (disk w)) w).

(** *** preprocessing.py: FeaturePreprocessor *)

(** [FeaturePreprocessor.__init__] *)
Definition FeaturePreprocessor_init : FeaturePreprocessor :=
  {| scaler := ObjScaler StandardScaler; is_fitted := false |}.

Definition fit_scaler (X : DataFrame) : ST FeaturePreprocessor unit :=
  fun self =>
    match scaler self with
    | ObjScaler sc =>
        let (r, sc') := scaler_fit sc X in
        match lib r with
        | Ok _ => (Ok tt, {| scaler := ObjScaler sc'; is_fitted := true |})
        | Raise e => (Raise e, {| scaler := ObjScaler sc'; is_fitted := is_fitted self |})
        end
    | ObjModelData _ =>
        (Raise (AttributeError "'dict' object has no attribute 'fit'"), self)
    end.

Definition transform (X : DataFrame) : ST FeaturePreprocessor ndarray :=
  fun self =>
    if negb (is_fitted self) then (Ok (df_values X), self)
    else match scaler self with
         | ObjScaler sc => (lib (scaler_transform sc X), self)
         | ObjModelData _ =>
             (Raise (AttributeError "'dict' object has no attribute 'transform'"), self)
         end.

Definition fit_transform (X : DataFrame) : ST FeaturePreprocessor ndarray :=
  let* _ := fit_scaler X in
  transform X.

Definition prepare_training_data (data : list record)
  : ST FeaturePreprocessor (ndarray * Series) :=
  let df := pd_DataFrame data in
  match df_get "target_speed_kmh" df with
  | None => raise (ValueError "Training data must contain target_speed_kmh")
  | Some y =>
      let* X_df := lift (prepare_features data) in
      let* X := fit_transform X_df in
      ret (X, y)
  end.

Definition prepare_prediction_features (features_dict : record)
  : ST FeaturePreprocessor ndarray :=
  let* df := lift (prepare_features [features_dict]) in
  transform df.

(** *** database.py: fetch_training_data *)

(** [WHERE target_speed_kmh IS NOT NULL ORDER BY timestamp DESC], with
    [LIMIT limit] when [limit] is given and not zero. *)
Definition fetch_training_data (limit : option nat) : ST World (list record) :=
  fun w => (Ok (training_rows limit (ml_features w)), w).

(** *** model.py: TrafficPredictionModel *)

(** [TrafficPredictionModel.__init__] *)
Definition TrafficPredictionModel_init (model_type : string) : TrafficPredictionModel :=
  {| model_type := model_type; model := None; metrics := None; trained_at := None;
     training_samples := 0; test_samples := 0; model_version := "1.0.0" |}.

Definition set_model (m : option Estimator) (self : TrafficPredictionModel)
  : TrafficPredictionModel :=
  {| model_type := model_type self; model := m; metrics := metrics self;
     trained_at := trained_at self; training_samples := training_samples self;
     test_samples := test_samples self; model_version := model_version self |}.

Definition set_samples (n_train n_test : nat) (self : TrafficPredictionModel)
  : TrafficPredictionModel :=
  {| model_type := model_type self; model := model self; metrics := metrics self;
     trained_at := trained_at self; training_samples := n_train;
     test_samples := n_test; model_version := model_version self |}.

Definition set_metrics (m : option Metrics) (self : TrafficPredictionModel)
  : TrafficPredictionModel :=
  {| model_type := model_type self; model := model self; metrics := m;
     trained_at := trained_at self; training_samples := training_samples self;
     test_samples := test_samples self; model_version := model_version self |}.

Definition set_trained_at (t : option nat) (self : TrafficPredictionModel)
  : TrafficPredictionModel :=
  {| model_type := model_type self; model := model self; metrics := metrics self;
     trained_at := t; training_samples := training_samples self;
     test_samples := test_samples self; model_version := model_version self |}.

(** [default_params.update(params); self.model = Regressor(default_params)] *)
Definition build (kind : string) (default_params params : gmap string param)
  : ST TrafficPredictionModel unit :=
  let* est := lift (lib (make_estimator kind (params ∪ default_params))) in
  modify (set_model (Some est)).

Definition _create_model (hyperparameters : option (gmap string param))
  : ST TrafficPredictionModel unit :=
  let params := default ∅ hyperparameters in
  let* self := get in
  if String.eqb (model_type self) "lightgbm" then
    build "lightgbm"
      {[ "n_estimators" := PInt (s_n_estimators settings);
         "max_depth" := PInt (s_max_depth settings);
         "learning_rate" := PNum 0.1;
         "num_leaves" := PInt 31;
         "random_state" := PInt (s_random_state settings);
         "verbose" := PInt (-1) ]} params
  else if String.eqb (model_type self) "randomforest" then
    build "randomforest"
      {[ "n_estimators" := PInt (s_n_estimators settings);
         "max_depth" := PInt (s_max_depth settings);
         "random_state" := PInt (s_random_state settings);
         "n_jobs" := PInt (-1) ]} params
  else if String.eqb (model_type self) "xgboost" then
    build "xgboost"
      {[ "n_estimators" := PInt (s_n_estimators settings);
         "max_depth" := PInt (s_max_depth settings);
         "learning_rate" := PNum 0.1;
         "random_state" := PInt (s_random_state settings);
         "tree_method" := PStr "hist" ]} params
  else raise (ValueError ("Unsupported model type: " +:+ model_type self)).

(** [self.model.fit(X, y)] and [self.model.predict(X)], on the estimator
    that [_create_model] has just stored. *)
Definition model_fit (X : ndarray) (y : Series) : ST TrafficPredictionModel unit :=
  fun self =>
    match model self with
    | Some est => let (r, est') := est_fit est X y in (lib r, set_model (Some est') self)
    | None => (Raise (AttributeError "'NoneType' object has no attribute 'fit'"), self)
    end.

Definition model_predict (X : ndarray) : ST TrafficPredictionModel (list Q) :=
  fun self =>
    match model self with
    | Some est => (lib (est_predict est X), self)
    | None => (Raise (AttributeError "'NoneType' object has no attribute 'predict'"), self)
    end.

Definition train (X : ndarray) (y : Series) (hyperparameters : option (gmap string param))
  : ST (TrafficPredictionModel * World) Metrics :=
  let* parts := lift (lib (train_test_split X y (s_train_test_split settings)
                                            (s_random_state settings))) in
  let X_train := parts.1.1 in
  let X_test := parts.1.2 in
  let y_train := parts.2.1 in
  let y_test := parts.2.2 in
  let* _ := on_self (modify (set_samples (length X_train) (length X_test))) in
  let* _ := on_self (_create_model hyperparameters) in
  let* _ := on_self (model_fit X_train y_train) in
  let* y_pred := on_self (model_predict X_test) in
  let* scores := lift (lib (evaluate y_test y_pred)) in
  let* _ := on_self (modify (set_metrics (Some scores))) in
  let* t := on_world datetime_now in
  let* _ := on_self (modify (set_trained_at (Some t))) in
  ret scores.

Definition predict (X : ndarray) : ST TrafficPredictionModel (list Q) :=
  let* self := get in
  match model self with
  | None => raise (ValueError "Model not trained or loaded")
  | Some est =>
      let* predictions := lift (lib (est_predict est X)) in
      ret (np_maximum_0 <$> predictions)
  end.

Definition get_feature_importance : ST TrafficPredictionModel (gmap string Q) :=
  let* self := get in
  match model self with
  | None => ret ∅
  | Some est =>
      let feature_names := get_feature_names in
      match feature_importances_ est with
      | Some importances => ret (py_dict (zip feature_names importances))
      | None => ret ∅
      end
  end.

Definition save (model_path : option string) : ST (TrafficPredictionModel * World) unit :=
  let* self := on_self get in
  match model self with
  | None => raise (ValueError "No model to save")
  | Some est =>
      let path := str_or model_path (s_model_path settings) in
      let model_data :=
        {| md_model := Some est;
           md_model_type := Some (model_type self);
           md_model_version := Some (model_version self);
           md_metrics := metrics self;
           md_trained_at := trained_at self;
           md_training_samples := Some (training_samples self);
           md_test_samples := Some (test_samples self) |} in
      let* _ := on_world (joblib_dump (ObjModelData model_data) path) in
      let scaler_path := s_feature_scaler_path settings in
      let* w := on_world get in
      on_world (joblib_dump (scaler (preprocessor w)) scaler_path)
  end.

Definition load (model_path : option string) : ST (TrafficPredictionModel * World) unit :=
  let path := str_or model_path (s_model_path settings) in
  let* found := on_world (path_exists path) in
  if negb found then raise (FileNotFoundError ("Model not found at " +:+ path))
  else
    let* obj := on_world (joblib_load path) in
    match obj with
    | ObjScaler _ => raise (TypeError "'StandardScaler' object is not subscriptable")
    | ObjModelData model_data =>
        match md_model model_data with
        | None => raise (KeyError "model")
        | Some est =>
            let* _ := on_self (put
              {| model := Some est;
                 model_type := default "unknown" (md_model_type model_data);
                 model_version := default "1.0.0" (md_model_version model_data);
                 metrics := md_metrics model_data;
                 trained_at := md_trained_at model_data;
                 training_samples := default 0 (md_training_samples model_data);
                 test_samples := default 0 (md_test_samples model_data) |}) in
            let scaler_path := s_feature_scaler_path settings in
            let* scaler_found := on_world (path_exists scaler_path) in
            if scaler_found then
              let* sc := on_world (joblib_load scaler_path) in
              on_world (on_preprocessor (put {| scaler := sc; is_fitted := true |}))
            else ret tt
        end
    end.

Definition is_trained (self : TrafficPredictionModel) : bool :=
  bool_decide (is_Some (model self)).

(** *** model.py: ModelManager *)

Definition ModelManager_init : ModelManager := {| current_model := None |}.

(** A method call on a local object [obj]: the call's result together with
    the object as the call leaves it. *)
Definition call {Self A : Type} (obj : Self) (c : ST (Self * World) A)
  : ST World (A * Self) :=
  fun w => let (r, s) := c (obj, w) in
           (match r with
            | Ok a => Ok (a, s.1)
            | Raise e => Raise e
            end, s.2).

Definition train_new_model (model_type : option string)
    (hyperparameters : option (gmap string param)) (data_limit : option nat)
  : ST (ModelManager * World) (TrafficPredictionModel * Metrics) :=
  let* training_data := on_world (fetch_training_data data_limit) in
  if length training_data <? 10 then
    raise (ValueError ("Insufficient training data: "
                       +:+ pretty (length training_data) +:+ " samples"))
  else
    let* Xy := on_world (on_preprocessor (prepare_training_data training_data)) in
    let model_type := str_or model_type (s_model_type settings) in
    let model := TrafficPredictionModel_init model_type in
    let* trained := on_world (call model (train Xy.1 Xy.2 hyperparameters)) in
    let* saved := on_world (call trained.2 (save None)) in
    let* _ := on_self (put {| current_model := Some saved.2 |}) in
    ret (saved.2, trained.1).

Definition load_model (model_path : option string)
  : ST (ModelManager * World) TrafficPredictionModel :=
  let model := TrafficPredictionModel_init "lightgbm" in
  let* loaded := on_world (call model (load model_path)) in
  let* _ := on_self (put {| current_model := Some loaded.2 |}) in
  ret loaded.2.

Definition get_model (self : ModelManager) : option TrafficPredictionModel :=
  current_model self.

(** A method call on the object [self.current_model]. *)
Definition on_current_model {A : Type} (current : TrafficPredictionModel)
    (c : ST TrafficPredictionModel A) : ST ModelManager A :=
  fun _ => let (r, current') := c current in (r, {| current_model := Some current' |}).

(** [ModelManager.predict] *)
Definition ModelManager_predict (features : record)
  : ST (ModelManager * World) (Q * string) :=
  let* self := on_self get in
  match current_model self with
  | None => raise (ValueError "No model loaded")
  | Some current =>
      let* X := on_world (on_preprocessor (prepare_prediction_features features)) in
      let* predictions := on_self (on_current_model current (predict X)) in
      match predictions !! 0%nat with
      | None => raise (IndexError "index 0 is out of bounds")
      | Some speed_pred =>
          let max_speed := default (VNum 60) (features !! "max_speed_kmh") in
          match to_num max_speed with
          | None => raise (TypeError "unsupported operand type(s) for /: 'float' and 'NoneType'")
          | Some max_speed_kmh =>
              ret (speed_pred,
                   encode_congestion_level (py_float speed_pred)
                                           (py_float max_speed_kmh))
          end
      end
  end.

End Service.

(** ** A small instance of the libraries and sample data

    A scaler that centres every column on its median, a regressor that
    answers the same number for every row: enough to run the service. *)
Module Demo.

Definition centre (offset : Q) (v : pyval) : pyval :=
  match to_num v with
  | Some q => VNum (Qred (q - offset))
  | None => VNone
  end.

Definition offsets (X : DataFrame) : list Q :=
  (fun c => default 0%Q (to_num (median c.2))) <$> columns X.

Definition centred (offs : list Q) (X : DataFrame) : ndarray :=
  (fun row => zip_with centre offs row) <$> df_values X.

#[global] Instance libraries : Libraries := {|
  Scaler := option (list Q);
  Estimator := Q;
  Metrics := nat;
  StandardScaler := None;
  scaler_fit := fun _ X => (Done tt, Some (offsets X));
  scaler_transform := fun sc X =>
    match sc with
    | Some offs => Done (centred offs X)
    | None => Failed "NotFittedError"
    end;
  make_estimator := fun _ _ => Done 0%Q;
  train_test_split := fun X y _ _ => Done ((X, take 1 X), (y, take 1 y));
  est_fit := fun _ X y => (Done tt, default 0%Q (to_num (median y)));
  est_predict := fun est X => Done ((fun _ => est) <$> X);
  feature_importances_ := fun _ => None;
  evaluate := fun y_test y_pred => Done (length y_pred)
|}.

(** A labelled row of the table. *)
Definition row (hour : Z) (speed : Q) : record :=
  list_to_map
    [ ("road_id", VNum 7); ("timestamp", VNum (inject_Z (1700000000 + hour)));
      ("hour_of_day", VNum (inject_Z hour)); ("day_of_week", VNum 2);
      ("day_of_month", VNum 14); ("month", VNum 11);
      ("is_rush_hour", VBool true); ("is_weekend", VBool false);
      ("avg_speed_historical", VNum 38.5); ("temperature", VNone);
      ("is_raining", VBool false); ("event_nearby", VBool false);
      ("lanes", VNum 3); ("max_speed_kmh", VNum 60);
      ("arroyo_nearby", VBool true);
      ("target_speed_kmh", VNum speed) ].

(** The same sample with no label, and with no hour. *)
Definition unlabelled (hour : Z) : record := delete "target_speed_kmh" (row hour 0).

Definition without_hour : record := <["hour_of_day" := VNone]> (row 8 41).

(** Twelve labelled rows. *)
Definition twelve_rows : list record :=
  (fun h => row (Z.of_nat h) (inject_Z (Z.of_nat (30 + h)))) <$> seq 0 12.

(** A table with five labelled rows and an unlabelled one. *)
Definition five_rows : list record :=
  [ row 8 41; row 9 35.5; unlabelled 10; row 11 52; row 12 47; row 13 44 ].

(** The frame of two rows, and what fitting and transforming it gives. *)
Definition sample_frame : DataFrame :=
  match prepare_features [row 8 41; row 9 35.5] with
  | Ok df => df
  | Raise _ => {| index := 0; columns := [] |}
  end.

Definition sample_fitted : FeaturePreprocessor :=
  {| scaler := ObjScaler (Some (offsets sample_frame)); is_fitted := true |}.

Definition sample_scaled : ndarray := centred (offsets sample_frame) sample_frame.

Definition fresh_world (table : list record) : World :=
  {| preprocessor := FeaturePreprocessor_init; disk := ∅;
     ml_features := table; clock := 0 |}.

(** What [save] leaves at the model path. *)
Definition stored : model_data :=
  {| md_model := Some 42%Q; md_model_type := Some "xgboost";
     md_model_version := Some "1.0.0"; md_metrics := Some 3%nat;
     md_trained_at := Some 17%nat; md_training_samples := Some 80%nat;
     md_test_samples := Some 20%nat |}.

Definition world_with_model_file : World :=
  {| preprocessor := FeaturePreprocessor_init;
     disk := {[ s_model_path default_settings := ObjModelData stored ]};
     ml_features := []; clock := 0 |}.

End Demo.

(** * Properties *)

Ltac by_computation := apply (bool_decide_unpack _); vm_compute; exact I.

(** *** Columns of a frame *)

Lemma get_col_set_eq col s cs : get_col col (set_col col s cs) = Some s.
Proof.
  induction cs as [|[k s'] cs IH]; simpl.
  - by rewrite String.eqb_refl.
  - destruct (String.eqb_spec k col) as [->|Hne]; simpl.
    + by rewrite String.eqb_refl.
    + by destruct (String.eqb_spec k col).
Qed.

Lemma get_col_set_ne col col' s cs :
  col <> col' -> get_col col' (set_col col s cs) = get_col col' cs.
Proof.
  intros Hne. induction cs as [|[k s'] cs IH]; simpl.
  - by destruct (String.eqb_spec col col').
  - destruct (String.eqb_spec k col) as [->|Hk]; simpl.
    + by destruct (String.eqb_spec col col').
    + by rewrite IH.
Qed.

Lemma df_get_set_eq col s df : df_get col (df_set col s df) = Some s.
Proof. apply get_col_set_eq. Qed.

Lemma df_get_set_ne col col' s df :
  col <> col' -> df_get col' (df_set col s df) = df_get col' df.
Proof. apply get_col_set_ne. Qed.

Lemma get_col_fmap (g : string -> Series) (ks : list string) (f : string) :
  get_col f ((fun k => (k, g k)) <$> ks) = if decide (f ∈ ks) then Some (g f) else None.
Proof.
  induction ks as [|k ks IH].
  - case_decide as Hin; [by apply elem_of_nil in Hin|done].
  - rewrite fmap_cons. cbn [get_col].
    destruct (String.eqb_spec k f) as [->|Hne].
    + by rewrite decide_True by apply list_elem_of_here.
    + rewrite IH. destruct (decide (f ∈ ks)) as [Hin|Hin].
      * by rewrite decide_True by by apply list_elem_of_further.
      * rewrite decide_False; [done|]. by intros [->|?]%elem_of_cons.
Qed.

Lemma elem_of_batch_keys f data : f ∈ batch_keys data <-> occurs f data.
Proof.
  unfold batch_keys, occurs. rewrite elem_of_remove_dups, list_elem_of_bind.
  split.
  - intros (r & Hf & Hr). exists r. split; [done|].
    apply list_elem_of_fmap in Hf as ([k v] & -> & Hkv).
    apply elem_of_map_to_list in Hkv. eauto.
  - intros (r & Hr & [v Hv]). exists r. split; [|done].
    apply list_elem_of_fmap. exists (f, v). split; [done|].
    by apply elem_of_map_to_list.
Qed.

Lemma df_get_pd_DataFrame f data :
  df_get f (pd_DataFrame data)
  = if decide (f ∈ batch_keys data) then Some (cells_of f data) else None.
Proof. unfold df_get, pd_DataFrame; simpl. apply get_col_fmap. Qed.

Lemma length_cells_of f data : length (cells_of f data) = length data.
Proof. unfold cells_of. by rewrite length_fmap. Qed.

Lemma lookup_cells_of f data i r :
  data !! i = Some r -> cells_of f data !! i = Some (value r f).
Proof. intros H. unfold cells_of. by rewrite list_lookup_fmap, H. Qed.

(** *** Results of loops *)

Lemma map_result_Ok {A B} (f : A -> result B) xs ys :
  map_result f xs = Ok ys <-> Forall2 (fun x y => f x = Ok y) xs ys.
Proof.
  revert ys. induction xs as [|x xs IH]; intros ys; simpl.
  - split; [intros [= <-]; constructor|by inversion 1].
  - destruct (f x) as [y|e] eqn:Hx; simpl.
    + destruct (map_result f xs) as [ys'|e] eqn:Hxs; simpl.
      * split.
        -- intros [= <-]. constructor; [done|]. by apply IH.
        -- inversion 1 as [|? y' ? ys'' Hy Hys]; subst.
           apply IH in Hys. congruence.
      * split; [done|]. inversion 1 as [|? y' ? ys'' Hy Hys]; subst.
        apply IH in Hys. congruence.
    + split; [done|]. inversion 1; congruence.
Qed.

Lemma map_result_Raise {A B} (f : A -> result B) xs e :
  map_result f xs = Raise e -> exists x, x ∈ xs /\ f x = Raise e.
Proof.
  induction xs as [|x xs IH]; simpl; [done|].
  destruct (f x) as [y|e'] eqn:Hx; simpl.
  - destruct (map_result f xs) as [ys|e'] eqn:Hxs; simpl; [done|].
    intros [= ->]. destruct IH as (x' & ? & ?); [done|]. exists x'.
    split; [by apply list_elem_of_further|done].
  - intros [= ->]. exists x. split; [apply list_elem_of_here|done].
Qed.

Lemma py_int_notna v c : py_int v = Ok c -> isna v = false /\ isna c = false.
Proof. destruct v; simpl; [done|intros [= <-]..]; done. Qed.

Lemma py_int_raise v e : py_int v = Raise e -> isna v = true.
Proof. by destruct v. Qed.

Lemma astype_int_Ok s s' :
  astype_int s = Ok s' <-> Forall2 (fun v c => py_int v = Ok c) s s'.
Proof. apply map_result_Ok. Qed.

Lemma astype_int_Raise s e :
  astype_int s = Raise e -> exists v, v ∈ s /\ isna v = true.
Proof.
  intros E. apply map_result_Raise in E as (v & Hv & He).
  apply py_int_raise in He. eauto.
Qed.

(** The bool loop: a column of the list is converted, the others are kept;
    the loop raises when a conversion does. *)
Lemma for_each_bool_step cols df :
  NoDup cols ->
  match for_each bool_step cols df with
  | Ok df' =>
      index df' = index df /\
      forall f,
        (f ∉ cols -> df_get f df' = df_get f df) /\
        (f ∈ cols ->
           match df_get f df with
           | Some s => exists s', astype_int s = Ok s' /\ df_get f df' = Some s'
           | None => df_get f df' = None
           end)
  | Raise e => exists f s, f ∈ cols /\ df_get f df = Some s /\ astype_int s = Raise e
  end.
Proof.
  intros Hnd. revert df. induction Hnd as [|c cs Hc Hnd IH]; intros df; simpl.
  - split; [done|]. intros f. split; [done|]. by intros ?%elem_of_nil.
  - unfold bool_step at 1.
    destruct (df_get c df) as [s|] eqn:Hget; simpl.
    + destruct (astype_int s) as [s'|e] eqn:Hs; simpl.
      * specialize (IH (df_set c s' df)).
        destruct (for_each bool_step cs (df_set c s' df)) as [df'|e].
        -- destruct IH as [Hidx IH]. split; [done|]. intros f.
           destruct (IH f) as [IH1 IH2]. split.
           ++ intros [Hfc Hf]%not_elem_of_cons. rewrite IH1 by done.
              by apply df_get_set_ne.
           ++ intros [->|Hf]%elem_of_cons.
              ** rewrite Hget. exists s'. split; [done|].
                 rewrite IH1 by done. apply df_get_set_eq.
              ** assert (c <> f) by (by intros ->).
                 specialize (IH2 Hf). by rewrite df_get_set_ne in IH2.
        -- destruct IH as (f & s0 & Hf & Hget' & Hs0). exists f, s0.
           assert (c <> f) by (by intros ->).
           rewrite df_get_set_ne in Hget' by done.
           split; [by apply list_elem_of_further|done].
      * exists c, s. split; [apply list_elem_of_here|done].
    + specialize (IH df).
      destruct (for_each bool_step cs df) as [df'|e].
      * destruct IH as [Hidx IH]. split; [done|]. intros f.
        destruct (IH f) as [IH1 IH2]. split.
        -- intros [_ Hf]%not_elem_of_cons. by apply IH1.
        -- intros [->|Hf]%elem_of_cons; [|by apply IH2].
           rewrite Hget. rewrite IH1 by done. done.
      * destruct IH as (f & s0 & Hf & Hget' & Hs0). exists f, s0.
        split; [by apply list_elem_of_further|done].
Qed.

(** The fill loop. *)
Lemma foldl_fill_step fills df :
  NoDup fills.*1 ->
  let df' := foldl fill_step df fills in
  index df' = index df /\
  forall f,
    (f ∉ fills.*1 -> df_get f df' = df_get f df) /\
    (forall d, (f, d) ∈ fills -> df_get f df' = fillna d <$> df_get f df).
Proof.
  revert df. induction fills as [|[c d0] fills IH]; intros df Hnd; simpl.
  - split; [done|]. intros f. split; [done|]. by intros d ?%elem_of_nil.
  - apply NoDup_cons in Hnd as [Hc Hnd]. simpl in Hc.
    set (df1 := fill_step df (c, d0)).
    assert (index df1 = index df) as Hidx1.
    { unfold df1, fill_step. simpl. by destruct (df_get c df). }
    assert (df_get c df1 = fillna d0 <$> df_get c df) as Hc1.
    { unfold df1, fill_step. simpl. destruct (df_get c df) eqn:E; simpl.
      - apply df_get_set_eq.
      - done. }
    assert (forall f, c <> f -> df_get f df1 = df_get f df) as Hne1.
    { intros f Hf. unfold df1, fill_step. simpl. destruct (df_get c df); [|done].
      by apply df_get_set_ne. }
    destruct (IH df1 Hnd) as [Hidx IH']. split; [congruence|]. intros f.
    destruct (IH' f) as [IH1 IH2]. split.
    + intros [Hfc Hf]%not_elem_of_cons.
      rewrite IH1 by done. apply Hne1. by intros ->.
    + intros d [[= -> ->]|Hd]%elem_of_cons.
      * by rewrite IH1.
      * rewrite (IH2 d Hd). rewrite Hne1; [done|].
        intros ->. apply Hc. apply list_elem_of_fmap. by exists (f, d).
Qed.

(** The loop that adds the absent features. *)
Lemma foldl_ensure_step names df :
  let df' := foldl ensure_step df names in
  index df' = index df /\
  forall f,
    df_get f df' =
    match df_get f df with
    | Some s => Some s
    | None => if decide (f ∈ names) then Some (replicate (index df) (VNum 0)) else None
    end.
Proof.
  revert df. induction names as [|c names IH]; intros df; cbn [foldl].
  - split; [done|]. intros f. destruct (df_get f df); [done|].
    case_decide as Hin; [by apply elem_of_nil in Hin|done].
  - destruct (IH (ensure_step df c)) as [Hidx IH'].
    assert (index (ensure_step df c) = index df) as Hidx1.
    { unfold ensure_step. by destruct (df_get c df). }
    split; [congruence|]. intros f. rewrite IH', Hidx1.
    unfold ensure_step. destruct (df_get c df) as [s|] eqn:Hc.
    + destruct (df_get f df) eqn:Hf; [done|].
      assert (c <> f) as Hne by (intros ->; congruence).
      apply decide_ext. rewrite elem_of_cons.
      split; [by right|by intros [->|?]].
    + destruct (decide (c = f)) as [->|Hne].
      * rewrite df_get_set_eq, Hc. by rewrite decide_True by apply list_elem_of_here.
      * rewrite df_get_set_ne by done. destruct (df_get f df); [done|].
        apply decide_ext. rewrite elem_of_cons.
        split; [by right|by intros [->|?]].
Qed.

(** Selecting columns that are all there. *)
Lemma df_select_present names df :
  (forall f, f ∈ names -> is_Some (df_get f df)) ->
  df_select names df
  = Ok {| index := index df;
          columns := (fun k => (k, default [] (df_get k df))) <$> names |}.
Proof.
  intros Hall. unfold df_select.
  assert (map_result
            (fun k => match df_get k df with
                      | Some s => Ok (k, s)
                      | None => Raise (KeyError k)
                      end) names
          = Ok ((fun k => (k, default [] (df_get k df))) <$> names)) as ->; [|done].
  apply map_result_Ok. induction names as [|k names IH]; [constructor|].
  rewrite fmap_cons. constructor.
  - destruct (Hall k) as [s ->]; [apply list_elem_of_here|done].
  - apply IH. intros f Hf. apply Hall. by apply list_elem_of_further.
Qed.

(** *** The lists of the source *)

Lemma unfilled_columns_eq :
  unfilled_columns = ["hour_of_day"; "day_of_week"; "day_of_month"; "month"].
Proof. by vm_compute. Qed.

Lemma NoDup_bool_columns : NoDup bool_columns.
Proof. by_computation. Qed.

Lemma NoDup_fill_keys : NoDup fill_keys.
Proof. by_computation. Qed.

Lemma length_FEATURE_ORDER : length FEATURE_ORDER = 24.
Proof. reflexivity. Qed.

Lemma bool_columns_not_filled : Forall (fun f => f ∉ fill_keys) bool_columns.
Proof. by_computation. Qed.

Lemma fixed_fills_not_bool :
  Forall (fun f => (f ∉ bool_columns) /\ f <> "avg_speed_historical")
         (fixed_fills.*1).
Proof. by_computation. Qed.

Lemma avg_speed_not_bool : "avg_speed_historical" ∉ bool_columns.
Proof. by_computation. Qed.

Lemma fixed_fills_notna : Forall (fun e => isna e.2 = false) fixed_fills.
Proof. by_computation. Qed.

Lemma FEATURE_ORDER_cases f :
  f ∈ FEATURE_ORDER ->
  f ∈ bool_columns \/ f ∈ fixed_fills.*1 \/ f = "avg_speed_historical"
  \/ f ∈ unfilled_columns.
Proof.
  intros Hf. destruct (decide (f ∈ bool_columns)) as [|Hb]; [by left|].
  destruct (decide (f ∈ fixed_fills.*1)) as [|Hx]; [by right; left|].
  destruct (decide (f = "avg_speed_historical")) as [|Ha]; [by right; right; left|].
  right; right; right. unfold unfilled_columns. apply list_elem_of_filter.
  split; [|done]. rewrite elem_of_app. unfold fill_keys. rewrite elem_of_cons.
  tauto.
Qed.

(** *** The median *)

Lemma length_insert_sorted x xs : length (insert_sorted x xs) = S (length xs).
Proof.
  induction xs as [|y ys IH]; simpl; [done|].
  destruct (Qle_bool x y); simpl; by rewrite ?IH.
Qed.

Lemma length_sort_Q xs : length (sort_Q xs) = length xs.
Proof.
  induction xs as [|x xs IH]; simpl; [done|].
  by rewrite length_insert_sorted, IH.
Qed.

Lemma median_notna s :
  (exists v, v ∈ s /\ isna v = false) -> isna (median s) = false.
Proof.
  intros (v & Hv & Hna). unfold median. rewrite length_sort_Q.
  assert (exists q, q ∈ omap to_num s) as [q Hq].
  { destruct v as [|b|q]; [done|..].
    - exists (if b then 1 else 0)%Q. apply list_elem_of_omap. by exists (VBool b).
    - exists q. apply list_elem_of_omap. by exists (VNum q). }
  destruct (omap to_num s) as [|q0 qs]; [by apply elem_of_nil in Hq|].
  cbn [length Nat.eqb]. by destruct (Nat.even (S (length qs))).
Qed.

(** *** The stages of [prepare_features] *)

Lemma numeric_fills_keys df : (numeric_fills df).*1 = fill_keys.
Proof. reflexivity. Qed.

Lemma prepare_features_select data df1 :
  for_each bool_step bool_columns (pd_DataFrame data) = Ok df1 ->
  let df3 := foldl ensure_step (_fill_missing_values df1) FEATURE_ORDER in
  prepare_features data
  = Ok {| index := index df3;
          columns := (fun k => (k, default [] (df_get k df3))) <$> FEATURE_ORDER |}.
Proof.
  intros H1 df3. unfold prepare_features. rewrite H1. cbn [rbind].
  apply df_select_present. intros f Hf.
  destruct (foldl_ensure_step FEATURE_ORDER (_fill_missing_values df1)) as [_ H3].
  rewrite H3. destruct (df_get f (_fill_missing_values df1)); [eauto|].
  rewrite decide_True by done. eauto.
Qed.

Lemma not_unfilled_bool f : f ∈ unfilled_columns -> f ∈ bool_columns -> False.
Proof.
  unfold unfilled_columns. rewrite list_elem_of_filter, elem_of_app. tauto.
Qed.

Lemma not_unfilled_filled f : f ∈ unfilled_columns -> f ∈ fill_keys -> False.
Proof.
  unfold unfilled_columns. rewrite list_elem_of_filter, elem_of_app. tauto.
Qed.

Lemma fixed_fills_key f d : (f, d) ∈ fixed_fills -> f ∈ fixed_fills.*1.
Proof. intros H. apply list_elem_of_fmap. by exists (f, d). Qed.

Lemma filled_columns data df1 f :
  for_each bool_step bool_columns (pd_DataFrame data) = Ok df1 ->
  index (_fill_missing_values df1) = length data /\
  if decide (f ∈ batch_keys data)
  then exists s, df_get f (_fill_missing_values df1) = Some s /\ prepared data f s
  else df_get f (_fill_missing_values df1) = None.
Proof.
  intros H1.
  pose proof (for_each_bool_step bool_columns (pd_DataFrame data) NoDup_bool_columns)
    as Hb. rewrite H1 in Hb. destruct Hb as [Hidx1 Hb].
  unfold _fill_missing_values.
  destruct (foldl_fill_step (numeric_fills df1) df1 NoDup_fill_keys) as [Hidx2 Hf].
  split; [by rewrite Hidx2, Hidx1|].
  pose proof (df_get_pd_DataFrame f data) as H0.
  pose proof bool_columns_not_filled as Hbf. rewrite Forall_forall in Hbf.
  pose proof fixed_fills_not_bool as Hfb. rewrite Forall_forall in Hfb.
  destruct (Hb f) as [Hb1 Hb2]. destruct (Hf f) as [Hf1 Hf2].
  rewrite numeric_fills_keys in Hf1.
  case_decide as Hin.
  - (* the batch has the feature *)
    destruct (decide (f ∈ bool_columns)) as [Hbool|Hbool].
    + specialize (Hb2 Hbool). rewrite H0 in Hb2. destruct Hb2 as (s' & Hs' & Hg1).
      exists s'. rewrite Hf1 by by apply Hbf. split; [done|].
      split; [done|]. split; [|split].
      * intros d Hd%fixed_fills_key. by destruct (Hfb f Hd).
      * intros ->. by destruct avg_speed_not_bool.
      * intros Hu. by destruct (not_unfilled_bool f).
    + specialize (Hb1 Hbool). rewrite H0 in Hb1.
      destruct (decide (f ∈ fill_keys)) as [Hk|Hk].
      * assert (exists d, (f, d) ∈ numeric_fills df1) as [d Hd].
        { rewrite <-(numeric_fills_keys df1) in Hk.
          apply list_elem_of_fmap in Hk as ([f' d] & -> & Hd). by exists d. }
        exists (fillna d (cells_of f data)).
        rewrite (Hf2 d Hd), Hb1. split; [done|].
        split; [done|]. split; [|split].
        -- intros d' Hd'.
           assert ((f, d') ∈ numeric_fills df1) as Hd2 by by apply list_elem_of_further.
           pose proof (Hf2 d' Hd2) as E. rewrite (Hf2 d Hd), Hb1 in E.
           by injection E.
        -- intros ->.
           assert (("avg_speed_historical",
                    median (cells_of "avg_speed_historical" data))
                   ∈ numeric_fills df1) as Hd2.
           { unfold numeric_fills. rewrite Hb1. apply list_elem_of_here. }
           pose proof (Hf2 _ Hd2) as E. rewrite (Hf2 d Hd), Hb1 in E.
           by injection E.
        -- intros Hu. by destruct (not_unfilled_filled f).
      * exists (cells_of f data). rewrite (Hf1 Hk), Hb1. split; [done|].
        split; [done|]. split; [|split]; [| |done].
        -- intros d Hd%fixed_fills_key. destruct Hk. by apply list_elem_of_further.
        -- intros ->. destruct Hk. apply list_elem_of_here.
  - (* no record has it *)
    assert (df_get f df1 = None) as Hg1.
    { destruct (decide (f ∈ bool_columns)) as [Hbool|Hbool].
      - specialize (Hb2 Hbool). by rewrite H0 in Hb2.
      - by rewrite (Hb1 Hbool). }
    destruct (decide (f ∈ fill_keys)) as [Hk|Hk].
    + rewrite <-(numeric_fills_keys df1) in Hk.
      apply list_elem_of_fmap in Hk as ([f' d] & -> & Hd).
      by rewrite (Hf2 d Hd), Hg1.
    + by rewrite (Hf1 Hk).
Qed.

Lemma fillna_lookup d s i v :
  s !! i = Some v -> fillna d s !! i = Some (if isna v then d else v).
Proof. intros H. unfold fillna. by rewrite list_lookup_fmap, H. Qed.

Lemma Ok_inj {A} (a b : A) : Ok a = Ok b -> a = b.
Proof. by intros [= ->]. Qed.

Lemma fmap_fst_pair {A B} (g : A -> B) (l : list A) :
  ((fun k => (k, g k)) <$> l).*1 = l.
Proof. induction l as [|k l IH]; [done|]. rewrite !fmap_cons. by rewrite IH. Qed.

(** The columns of the result, one by one. *)
Lemma prepare_features_columns data df :
  prepare_features data = Ok df ->
  index df = length data /\
  (columns df).*1 = FEATURE_ORDER /\
  forall f, f ∈ FEATURE_ORDER ->
    exists s, df_get f df = Some s /\ (f, s) ∈ columns df /\
      (forall s', (f, s') ∈ columns df -> s' = s) /\
      if decide (f ∈ batch_keys data) then prepared data f s
      else s = replicate (length data) (VNum 0).
Proof.
  intros Hprep.
  destruct (for_each bool_step bool_columns (pd_DataFrame data)) as [df1|e] eqn:H1;
    [|by unfold prepare_features in Hprep; rewrite H1 in Hprep].
  rewrite (prepare_features_select data df1 H1) in Hprep.
  apply Ok_inj in Hprep.
  pose proof (foldl_ensure_step FEATURE_ORDER (_fill_missing_values df1)) as H3.
  pose proof (filled_columns data df1) as H2.
  cbv zeta in H3. destruct H3 as [Hidx3 H3].
  revert Hprep Hidx3 H3.
  generalize (foldl ensure_step (_fill_missing_values df1) FEATURE_ORDER).
  revert H2. generalize (_fill_missing_values df1).
  intros df2 H2 df3 <- Hidx3 H3. cbn [index columns].
  split; [|split].
  - rewrite Hidx3. by destruct (H2 EmptyString H1).
  - apply fmap_fst_pair.
  - intros f Hf. exists (default [] (df_get f df3)).
    unfold df_get at 1. cbn [columns]. rewrite get_col_fmap, decide_True by done.
    split; [done|]. split; [|split].
    + apply list_elem_of_fmap. by exists f.
    + by intros s' (k & [= -> ->] & _)%list_elem_of_fmap.
    + rewrite (H3 f). destruct (H2 f H1) as [Hidx2 Hcol].
      case_decide.
      * by destruct Hcol as (s & -> & Hs).
      * rewrite Hcol, decide_True by done. cbn [default from_option id].
        by rewrite Hidx2.
Qed.

Lemma elem_of_cells_of f data v :
  v ∈ cells_of f data <-> exists r, r ∈ data /\ v = value r f.
Proof.
  unfold cells_of. rewrite list_elem_of_fmap. split.
  - intros (r & -> & Hr). by exists r.
  - intros (r & Hr & ->). by exists r.
Qed.

Lemma prepare_features_returns data :
  (exists df, prepare_features data = Ok df) <->
  (forall f r, f ∈ bool_columns -> occurs f data -> r ∈ data ->
     isna (value r f) = false).
Proof.
  pose proof (for_each_bool_step bool_columns (pd_DataFrame data) NoDup_bool_columns)
    as Hb.
  split.
  - intros [df Hprep] f r Hf Hocc Hr.
    destruct (for_each bool_step bool_columns (pd_DataFrame data)) as [df1|e] eqn:H1;
      [|by unfold prepare_features in Hprep; rewrite H1 in Hprep].
    destruct Hb as [_ Hb]. destruct (Hb f) as [_ Hb2]. specialize (Hb2 Hf).
    rewrite df_get_pd_DataFrame, decide_True in Hb2 by by apply elem_of_batch_keys.
    destruct Hb2 as (s' & Hs' & _). apply astype_int_Ok in Hs'.
    assert (value r f ∈ cells_of f data) as Hv by (apply elem_of_cells_of; eauto).
    apply list_elem_of_lookup in Hv as [i Hi].
    destruct (Forall2_lookup_l _ _ _ _ _ Hs' Hi) as (c & _ & Hc).
    by apply py_int_notna in Hc as [? _].
  - intros Hall.
    destruct (for_each bool_step bool_columns (pd_DataFrame data)) as [df1|e] eqn:H1.
    + eexists. by apply prepare_features_select.
    + exfalso. destruct Hb as (f & s & Hf & Hget & Hs).
      rewrite df_get_pd_DataFrame in Hget. case_decide as Hin; [|done].
      injection Hget as <-. apply astype_int_Raise in Hs as (v & Hv & Hna).
      apply elem_of_cells_of in Hv as (r & Hr & ->).
      rewrite Hall in Hna; [done..|by apply elem_of_batch_keys|done].
Qed.

Lemma length_df_values df : length (df_values df) = index df.
Proof. unfold df_values. by rewrite length_fmap, length_seq. Qed.

Lemma row_length_df_values df row :
  row ∈ df_values df -> length row = length (columns df).
Proof.
  unfold df_values. intros (i & -> & _)%list_elem_of_fmap. by rewrite length_fmap.
Qed.

(** C1, as the code has it.  [prepare_features] returns when no Boolean
    feature that occurs in the batch is null or missing in a record.  When it
    returns, the frame has one row per record and the 24 columns of
    [FEATURE_ORDER], in that order.  A feature that no record has is a
    column of zeros.  In a feature the batch has, a Boolean is coerced to 0
    or 1, a null of a feature with a fixed default is replaced by the
    default, a null of [avg_speed_historical] by the median of the batch's
    values when there is one, and the four temporal features are copied as
    they are.  So the frame has no null cell when no temporal value of the
    batch is null and [avg_speed_historical], if the batch has it, is not
    null throughout. *)
Theorem prepare_features_matrix (data : list record) :
  ((forall f r, f ∈ bool_columns -> occurs f data -> r ∈ data ->
      isna (value r f) = false) ->
   exists df, prepare_features data = Ok df) /\
  forall df, prepare_features data = Ok df ->
    (index df = length data /\
     (columns df).*1 = FEATURE_ORDER /\
     length (columns df) = 24 /\
     (forall f s, (f, s) ∈ columns df -> length s = length data) /\
     length (df_values df) = length data /\
     (forall row, row ∈ df_values df -> length row = 24)) /\
    (forall f, f ∈ FEATURE_ORDER ->
       exists s, df_get f df = Some s /\
         (~ occurs f data -> s = replicate (length data) (VNum 0)) /\
         (occurs f data -> forall i r, data !! i = Some r ->
            exists c, s !! i = Some c /\
              (f ∈ bool_columns ->
                 py_int (value r f) = Ok c /\
                 forall b, value r f = VBool b -> c = VNum (if b then 1 else 0)) /\
              (forall d, (f, d) ∈ fixed_fills ->
                 c = if isna (value r f) then d else value r f) /\
              (f = "avg_speed_historical" ->
               (exists r', r' ∈ data /\ isna (value r' f) = false) ->
                 c = if isna (value r f) then median (cells_of f data)
                     else value r f) /\
              (f ∈ unfilled_columns -> c = value r f))) /\
    ((forall f r, f ∈ unfilled_columns -> occurs f data -> r ∈ data ->
        isna (value r f) = false) ->
     (occurs "avg_speed_historical" data ->
        exists r, r ∈ data /\ isna (value r "avg_speed_historical") = false) ->
     forall f s c, (f, s) ∈ columns df -> c ∈ s -> isna c = false).
Proof.
  split; [apply prepare_features_returns|]. intros df Hprep.
  destruct (prepare_features_columns data df Hprep) as (Hidx & Hnames & Hcols).
  assert (length (columns df) = 24) as Hlen.
  { by rewrite <-(length_fmap fst), Hnames. }
  assert (forall f s, (f, s) ∈ columns df ->
            f ∈ FEATURE_ORDER /\ df_get f df = Some s) as Hmem.
  { intros f s Hfs. assert (f ∈ FEATURE_ORDER) as Hf.
    { rewrite <-Hnames. apply list_elem_of_fmap. by exists (f, s). }
    split; [done|]. destruct (Hcols f Hf) as (s0 & Hget & _ & Huniq & _).
    by rewrite (Huniq s Hfs). }
  assert (forall f s, f ∈ FEATURE_ORDER -> df_get f df = Some s ->
            length s = length data) as Hlens.
  { intros f s Hf Hget. destruct (Hcols f Hf) as (s0 & Hget0 & _ & _ & Hs0).
    assert (s0 = s) as -> by congruence.
    case_decide as Hin; [|subst s; apply length_replicate].
    destruct Hs0 as (Hb & Hfix & Havg & Hun).
    destruct (FEATURE_ORDER_cases f Hf) as [H|[H|[H|H]]].
    - apply Hb, astype_int_Ok, Forall2_length in H.
      by rewrite <-H, length_cells_of.
    - apply list_elem_of_fmap in H as ([f' d] & -> & Hd).
      rewrite (Hfix d Hd). unfold fillna. by rewrite length_fmap, length_cells_of.
    - rewrite (Havg H). unfold fillna. by rewrite length_fmap, length_cells_of.
    - rewrite (Hun H). apply length_cells_of. }
  split; [|split].
  - repeat split; try done.
    + intros f s Hfs. destruct (Hmem f s Hfs). eauto.
    + by rewrite length_df_values.
    + intros row Hrow. by rewrite (row_length_df_values df row Hrow).
  - intros f Hf. destruct (Hcols f Hf) as (s & Hget & _ & _ & Hs).
    exists s. split; [done|]. split.
    + intros Hocc. rewrite decide_False in Hs; [done|]. by rewrite elem_of_batch_keys.
    + intros Hocc i r Hi. rewrite decide_True in Hs by by apply elem_of_batch_keys.
      destruct Hs as (Hb & Hfix & Havg & Hun).
      pose proof (lookup_cells_of f data i r Hi) as Hcell.
      destruct (s !! i) as [c|] eqn:Hc.
      2:{ apply lookup_ge_None in Hc. rewrite (Hlens f s Hf Hget) in Hc.
          apply lookup_lt_Some in Hi. lia. }
      exists c. split; [done|]. split; [|split; [|split]].
      * intros H. apply Hb, astype_int_Ok in H.
        destruct (Forall2_lookup_l _ _ _ _ _ H Hcell) as (c' & Hc' & Hint).
        assert (c' = c) as -> by congruence. split; [done|].
        intros b Hv. rewrite Hv in Hint. simpl in Hint. congruence.
      * intros d Hd. rewrite (Hfix d Hd) in Hc.
        rewrite (fillna_lookup _ _ _ _ Hcell) in Hc. congruence.
      * intros H _. rewrite (Havg H) in Hc.
        rewrite (fillna_lookup _ _ _ _ Hcell) in Hc. congruence.
      * intros H. rewrite (Hun H) in Hc. congruence.
  - intros Hun0 Havg0 f s c Hfs Hc. destruct (Hmem f s Hfs) as [Hf Hget].
    destruct (Hcols f Hf) as (s0 & Hget0 & _ & _ & Hs0).
    assert (s0 = s) as -> by congruence.
    case_decide as Hin; [|subst s; by apply elem_of_replicate_inv in Hc as ->].
    apply elem_of_batch_keys in Hin.
    destruct Hs0 as (Hb & Hfix & Havg & Hun).
    destruct (FEATURE_ORDER_cases f Hf) as [H|[H|[H|H]]].
    + apply Hb, astype_int_Ok in H. apply list_elem_of_lookup in Hc as [i Hi].
      destruct (Forall2_lookup_r _ _ _ _ _ H Hi) as (v & _ & Hint).
      by apply py_int_notna in Hint as [_ ?].
    + apply list_elem_of_fmap in H as ([f' d] & -> & Hd).
      rewrite (Hfix d Hd) in Hc. unfold fillna in Hc.
      apply list_elem_of_fmap in Hc as (v & -> & Hv).
      destruct (isna v) eqn:Hv'; [|done].
      pose proof fixed_fills_notna as Hnn. rewrite Forall_forall in Hnn.
      apply (Hnn _ Hd).
    + rewrite (Havg H) in Hc. unfold fillna in Hc.
      apply list_elem_of_fmap in Hc as (v & -> & Hv).
      destruct (isna v) eqn:Hv'; [|done].
      apply median_notna. subst f. destruct (Havg0 Hin) as (r & Hr & Hna).
      exists (value r "avg_speed_historical"). split; [|done].
      apply elem_of_cells_of. eauto.
    + rewrite (Hun H) in Hc. apply elem_of_cells_of in Hc as (r & Hr & ->).
      by apply Hun0.
Qed.

Lemma Qle_bool_false (x y : Q) : (y < x)%Q -> Qle_bool x y = false.
Proof.
  intros Hlt. destruct (Qle_bool x y) eqn:E; [|done].
  apply Qle_bool_iff in E. by apply Qlt_not_le in Hlt.
Qed.

(** *** The order of binary64 *)

Lemma SFcompare_antisym x y c :
  SFcompare x y = Some c -> SFcompare y x = Some (CompOpp c).
Proof.
  destruct x as [sx|sx| |sx mx ex], y as [sy|sy| |sy my ey]; cbn [SFcompare];
    try discriminate; try (destruct sx); try (destruct sy);
    intros [= <-]; try reflexivity; f_equal;
    rewrite (Z.compare_antisym ex ey); destruct (ex ?= ey)%Z; cbn [CompOpp];
    try reflexivity.
  - by rewrite (Pos.compare_cont_antisym _ _ Eq), CompOpp_involutive.
  - by rewrite (Pos.compare_cont_antisym _ _ Eq).
Qed.

Lemma SFcompare_Lt_trans x y z :
  SFcompare x y = Some Lt -> SFcompare y z = Some Lt -> SFcompare x z = Some Lt.
Proof.
  destruct x as [sx|sx| |sx mx ex], y as [sy|sy| |sy my ey], z as [sz|sz| |sz mz ez];
    cbn [SFcompare]; try discriminate;
    try (destruct sx); try (destruct sy); try (destruct sz);
    try discriminate; try reflexivity.
  - intros [= Hxy] [= Hyz]. f_equal.
    destruct (Z.compare_spec ex ey), (Z.compare_spec ey ez); try discriminate;
      destruct (Z.compare_spec ex ez); try lia; try reflexivity; subst.
    apply (f_equal CompOpp) in Hxy, Hyz. rewrite CompOpp_involutive in Hxy, Hyz.
    cbn [CompOpp] in Hxy, Hyz.
    change ((mx ?= my)%positive = Gt) in Hxy. change ((my ?= mz)%positive = Gt) in Hyz.
    apply Pos.compare_gt_iff in Hxy, Hyz.
    assert ((mx ?= mz)%positive = Gt) as H by (apply Pos.compare_gt_iff; lia).
    unfold Pos.compare in H. by rewrite H.
  - intros [= Hxy] [= Hyz]. f_equal.
    destruct (Z.compare_spec ex ey), (Z.compare_spec ey ez); try discriminate;
      destruct (Z.compare_spec ex ez); try lia; try reflexivity; subst.
    change (mx < my)%positive in Hxy. change (my < mz)%positive in Hyz.
    change ((mx ?= mz)%positive = Lt). apply Pos.compare_lt_iff. lia.
Qed.

(** On doubles, through the specification of the primitive operations. *)
Lemma ltb_leb_false (x y : float) : (x <? y)%float = true -> (y <=? x)%float = false.
Proof.
  rewrite FloatAxioms.ltb_spec, FloatAxioms.leb_spec. unfold SFltb, SFleb.
  destruct (SFcompare (Prim2SF x) (Prim2SF y)) as [[]|] eqn:Hxy; try discriminate.
  intros _. by rewrite (SFcompare_antisym _ _ _ Hxy).
Qed.

Lemma ltb_ltb_leb_false (x y z : float) :
  (x <? y)%float = true -> (y <? z)%float = true -> (z <=? x)%float = false.
Proof.
  rewrite !FloatAxioms.ltb_spec, FloatAxioms.leb_spec. unfold SFltb, SFleb.
  destruct (SFcompare (Prim2SF x) (Prim2SF y)) as [[]|] eqn:Hxy; try discriminate.
  destruct (SFcompare (Prim2SF y) (Prim2SF z)) as [[]|] eqn:Hyz; try discriminate.
  intros _ _. pose proof (SFcompare_Lt_trans _ _ _ Hxy Hyz) as Hxz.
  by rewrite (SFcompare_antisym _ _ _ Hxz).
Qed.

Lemma is_nan_leb_false (x y : float) : is_nan y = true -> (x <=? y)%float = false.
Proof.
  unfold is_nan. rewrite FloatAxioms.eqb_spec, FloatAxioms.leb_spec. unfold SFeqb, SFleb.
  destruct (Prim2SF y) as [s|s| |s m e]; cbn [SFcompare].
  - done.
  - by destruct s.
  - by destruct (Prim2SF x).
  - destruct s; rewrite Z.compare_refl, Pos.compare_cont_refl; done.
Qed.

Lemma leb_total (x y : float) :
  is_nan x = false -> is_nan y = false ->
  (x <=? y)%float = true \/ (y <? x)%float = true.
Proof.
  unfold is_nan. rewrite !FloatAxioms.eqb_spec, FloatAxioms.leb_spec, FloatAxioms.ltb_spec. unfold SFeqb, SFleb, SFltb.
  intros Hx Hy.
  destruct (SFcompare (Prim2SF x) (Prim2SF y)) as [[]|] eqn:Hxy; [by left..| |].
  - right. by rewrite (SFcompare_antisym _ _ _ Hxy).
  - exfalso. destruct (Prim2SF x) as [sx|sx| |sx mx ex], (Prim2SF y) as [sy|sy| |sy my ey];
      done.
Qed.

(** C2.  [encode_congestion_level] replaces a zero [max_speed] by 60, takes
    the ratio of the speed to it and answers "low" from 0.7 on, "moderate"
    from 0.5 up to 0.7, "high" from 0.3 up to 0.5 and "severe" otherwise,
    that is below 0.3 or for a ratio that is not a number; every ratio falls
    in one of these cases.  Ratio, thresholds and comparisons are those of
    binary64.  The three sample calls give "low", "high" and "severe", a
    [max_speed] of 0 behaves as 60, and a speed one unit in the last place
    below 7 on a road of 10 is still "low", its quotient rounding to the
    double of 0.7. *)
Theorem encode_congestion_level_thresholds :
  (forall speed max_speed : float,
     let ratio := (speed / (if max_speed =? 0 then 60 else max_speed))%float in
     ((0.7 <=? ratio)%float = true -> encode_congestion_level speed max_speed = "low") /\
     ((0.5 <=? ratio)%float = true /\ (ratio <? 0.7)%float = true ->
        encode_congestion_level speed max_speed = "moderate") /\
     ((0.3 <=? ratio)%float = true /\ (ratio <? 0.5)%float = true ->
        encode_congestion_level speed max_speed = "high") /\
     ((ratio <? 0.3)%float = true \/ is_nan ratio = true ->
        encode_congestion_level speed max_speed = "severe") /\
     ((0.7 <=? ratio)%float = true \/
      ((0.5 <=? ratio)%float = true /\ (ratio <? 0.7)%float = true) \/
      ((0.3 <=? ratio)%float = true /\ (ratio <? 0.5)%float = true) \/
      (ratio <? 0.3)%float = true \/ is_nan ratio = true)) /\
  encode_congestion_level 42 60 = "low" /\
  encode_congestion_level 29.9 60 = "high" /\
  encode_congestion_level 10 60 = "severe" /\
  (forall x : float, encode_congestion_level x 0 = encode_congestion_level x 60) /\
  encode_congestion_level 6.999999999999999 10 = "low".
Proof.
  split; [|repeat split; try (vm_compute; reflexivity); intros; reflexivity].
  intros speed max_speed ratio. unfold encode_congestion_level. fold ratio.
  assert ((0.3 <? 0.5)%float = true) as H35 by (vm_compute; reflexivity).
  assert ((0.5 <? 0.7)%float = true) as H57 by (vm_compute; reflexivity).
  assert ((0.3 <? 0.7)%float = true) as H37 by (vm_compute; reflexivity).
  split; [|split; [|split; [|split]]].
  - by intros ->.
  - intros [H1 H2]. by rewrite (ltb_leb_false _ _ H2), H1.
  - intros [H1 H2].
    by rewrite (ltb_ltb_leb_false ratio 0.5 0.7 H2 H57), (ltb_leb_false _ _ H2), H1.
  - intros [H|H].
    + by rewrite (ltb_ltb_leb_false ratio 0.3 0.7 H H37),
        (ltb_ltb_leb_false ratio 0.3 0.5 H H35), (ltb_leb_false _ _ H).
    + by rewrite !(is_nan_leb_false _ _ H).
  - destruct (is_nan ratio) eqn:Hnan; [by auto|].
    destruct (leb_total 0.7 ratio eq_refl Hnan) as [H7|H7]; [by auto|].
    destruct (leb_total 0.5 ratio eq_refl Hnan) as [H5|H5]; [by auto|].
    destruct (leb_total 0.3 ratio eq_refl Hnan) as [H3|H3]; by auto 6.
Qed.

(** ** The service *)

Section ServiceProperties.

Context `{Libraries}.
Variable settings : Settings.

(** *** The scaler state *)

Lemma transform_state X self : (transform X self).2 = self.
Proof.
  unfold transform. destruct (is_fitted self); simpl; [|done].
  by destruct (scaler self).
Qed.

Lemma transform_unfitted X self :
  is_fitted self = false -> transform X self = (Ok (df_values X), self).
Proof. intros Hf. unfold transform. by rewrite Hf. Qed.

Lemma fit_transform_Ok X self Y self' :
  fit_transform X self = (Ok Y, self') ->
  exists sc sc',
    scaler self = ObjScaler sc /\
    scaler_fit sc X = (Done tt, sc') /\
    self' = {| scaler := ObjScaler sc'; is_fitted := true |} /\
    scaler_transform sc' X = Done Y.
Proof.
  unfold fit_transform, bind, fit_scaler, transform.
  destruct (scaler self) as [sc|md]; [|done].
  destruct (scaler_fit sc X) as [[[]|tag] sc'] eqn:Hfit; simpl; [|done].
  destruct (scaler_transform sc' X) as [Y'|tag] eqn:Htr; simpl; [|done].
  intros [= <- <-]. by exists sc, sc'.
Qed.

Lemma fit_transform_Raise X self e self' :
  fit_transform X self = (Raise e, self') ->
  (exists tag, e = LibraryError tag) \/ (exists msg, e = AttributeError msg).
Proof.
  unfold fit_transform, bind, fit_scaler, transform.
  destruct (scaler self) as [sc|md]; [|intros [= <- _]; eauto].
  destruct (scaler_fit sc X) as [[[]|tag] sc'] eqn:Hfit; simpl;
    [|intros [= <- _]; eauto].
  destruct (scaler_transform sc' X) as [Y'|tag] eqn:Htr; simpl; [done|].
  intros [= <- _]; eauto.
Qed.

(** C5.  On a preprocessor whose scaler is not fitted, [transform] raises
    nothing, leaves the preprocessor as it is and returns the values of [X]:
    row [i], column [j] of the result is cell [i] of the [j]-th column. *)
Theorem transform_unfitted_passthrough (X : DataFrame) (sc : pyobject) :
  let self := {| scaler := sc; is_fitted := false |} in
  transform X self = (Ok (df_values X), self) /\
  length (df_values X) = index X /\
  forall i j col, (i < index X)%nat -> columns X !! j = Some col ->
    exists row, df_values X !! i = Some row /\ row !! j = Some (nth i col.2 VNone).
Proof.
  intros self. split; [by apply transform_unfitted|].
  split; [apply length_df_values|].
  intros i j col Hi Hcol. unfold df_values.
  rewrite list_lookup_fmap, lookup_seq_lt by done. simpl.
  eexists. split; [done|]. by rewrite list_lookup_fmap, Hcol.
Qed.

(** C6.  When [fit_transform X] returns [Y], a [transform X] on the
    preprocessor it leaves returns the same [Y]. *)
Theorem fit_transform_then_transform (X : DataFrame) (self self' : FeaturePreprocessor)
    (Y : ndarray) :
  fit_transform X self = (Ok Y, self') -> transform X self' = (Ok Y, self').
Proof.
  intros (sc & sc' & _ & _ & -> & Htr)%fit_transform_Ok.
  unfold transform. simpl. by rewrite Htr.
Qed.

Lemma predict_state X self : (predict X self).2 = self.
Proof.
  unfold predict, bind, get. destruct (model self); [|done].
  unfold lift. by destruct (lib (est_predict _ X)).
Qed.

Lemma prepare_prediction_features_eq features self :
  prepare_prediction_features features self
  = (rbind (prepare_features [features]) (fun df => (transform df self).1), self).
Proof.
  unfold prepare_prediction_features, bind, lift.
  destruct (prepare_features [features]) as [df|e]; [|done].
  cbn [rbind]. pose proof (transform_state df self) as Hst.
  by destruct (transform df self) as [r self']; simpl in *; subst.
Qed.

(** C9.  [prepare_prediction_features] is [prepare_features] on the one
    record followed by [transform], and leaves the preprocessor as it was;
    [transform] never changes the preprocessor; a [ModelManager.predict]
    leaves the manager and the globals, the scaler and its fitted flag among
    them, as they were, whether it returns or raises. *)
Theorem prediction_keeps_scaler_state :
  (forall features self,
     prepare_prediction_features features self
     = (match prepare_features [features] with
        | Ok df => (transform df self).1
        | Raise e => Raise e
        end, self)) /\
  (forall X self, (transform X self).2 = self) /\
  (forall features mgr w,
     (ModelManager_predict features (mgr, w)).2 = (mgr, w)).
Proof.
  split; [apply prepare_prediction_features_eq|].
  split; [apply transform_state|].
  intros features [current] w.
  unfold ModelManager_predict, bind, on_self, on_world, on_preprocessor, zoom, get.
  cbn [fst snd current_model]. destruct current as [current|]; [|done].
  rewrite prepare_prediction_features_eq. cbn [fst snd].
  assert (set_preprocessor (preprocessor w) w = w) as -> by by destruct w.
  destruct (rbind (prepare_features [features]) _) as [X|e]; [|done].
  unfold on_current_model. pose proof (predict_state X current) as Hst.
  destruct (predict X current) as [[predictions|e] current']; simpl in Hst; subst;
    cbn [fst snd]; [|done].
  destruct (predictions !! 0%nat); [|done].
  by destruct (to_num _).
Qed.

(** *** predict and get_feature_importance *)

Lemma np_maximum_0_nonneg p : (0 <= np_maximum_0 p)%Q.
Proof.
  unfold np_maximum_0. destruct (Qle_bool 0 p) eqn:E; [|apply Qle_refl].
  by apply Qle_bool_iff.
Qed.

Lemma np_maximum_0_keeps p : (0 <= p)%Q -> np_maximum_0 p = p.
Proof. intros Hp. unfold np_maximum_0. apply Qle_bool_iff in Hp. by rewrite Hp. Qed.

Lemma np_maximum_0_lifts p : (p < 0)%Q -> np_maximum_0 p = 0%Q.
Proof. intros Hp. unfold np_maximum_0. by rewrite Qle_bool_false. Qed.

(** C4.  [predict] raises the error "Model not trained or loaded" exactly
    when [model] is [None]; with an estimator, it returns the estimator's
    output with every negative entry replaced by 0 and the others kept; so
    every speed it returns is at least 0. *)
Theorem predict_invalid_state_or_clamped (self : TrafficPredictionModel) (X : ndarray) :
  ((predict X self).1 = Raise (ValueError "Model not trained or loaded")
   <-> model self = None) /\
  (forall est raw,
     model self = Some est -> est_predict est X = Done raw ->
     predict X self = (Ok (np_maximum_0 <$> raw), self) /\
     forall i p, raw !! i = Some p ->
       exists speed, (np_maximum_0 <$> raw) !! i = Some speed /\
         ((0 <= p)%Q -> speed = p) /\ ((p < 0)%Q -> speed = 0%Q)) /\
  (forall speeds, (predict X self).1 = Ok speeds ->
     Forall (fun speed => (0 <= speed)%Q) speeds).
Proof.
  unfold predict, bind, get, lift, raise, ret.
  destruct (model self) as [est|] eqn:Hm; cbn [fst].
  - split; [|split].
    + by destruct (est_predict est X).
    + intros est' raw [= <-] Hraw. rewrite Hraw. cbn [lib]. split; [done|].
      intros i p Hi. exists (np_maximum_0 p). rewrite list_lookup_fmap, Hi.
      split; [done|]. split; [apply np_maximum_0_keeps|apply np_maximum_0_lifts].
    + intros speeds. destruct (est_predict est X) as [raw|tag]; [|done].
      cbn [lib fst]. intros [= <-]. apply Forall_fmap, Forall_forall.
      intros p _. apply np_maximum_0_nonneg.
  - split; [done|]. split; [done|]. done.
Qed.

(** C8, as the code has it.  On a model with no estimator,
    [get_feature_importance] raises nothing and returns the empty mapping. *)
Theorem get_feature_importance_unfitted (self : TrafficPredictionModel) :
  model self = None -> get_feature_importance self = (Ok ∅, self).
Proof. intros Hm. unfold get_feature_importance, bind, get. by rewrite Hm. Qed.

(** *** load *)

(** C10.  When the model file is there with its estimator and the scaler
    file is not, [load] returns, restores the estimator and its metadata and
    leaves the globals, the preprocessor among them, as they were; if the
    scaler was not fitted, the features of a later prediction are the raw
    values. *)
Theorem load_without_scaler_file (model_path : option string)
    (self : TrafficPredictionModel) (w : World) (md : model_data) (est : Estimator) :
  disk w !! str_or model_path (s_model_path settings) = Some (ObjModelData md) ->
  md_model md = Some est ->
  disk w !! s_feature_scaler_path settings = None ->
  load settings model_path (self, w)
  = (Ok tt,
     ({| model_type := default "unknown" (md_model_type md);
         model := Some est;
         metrics := md_metrics md;
         trained_at := md_trained_at md;
         training_samples := default 0%nat (md_training_samples md);
         test_samples := default 0%nat (md_test_samples md);
         model_version := default "1.0.0" (md_model_version md) |}, w)) /\
  (is_fitted (preprocessor w) = false ->
   forall features,
     on_preprocessor (prepare_prediction_features features) w
     = (rbind (prepare_features [features]) (fun df => Ok (df_values df)), w)).
Proof.
  intros Hfile Hest Hscaler. split.
  - unfold load, bind, on_world, on_self, zoom, path_exists, joblib_load, raise, ret, put.
    cbn [fst snd]. rewrite Hfile, bool_decide_true by eauto.
    cbn [negb fst snd]. rewrite Hfile. cbn [fst snd]. rewrite Hest.
    cbn [fst snd]. rewrite Hscaler, bool_decide_false by (by intros [? ?]).
    done.
  - intros Hfit features. unfold on_preprocessor, zoom.
    rewrite prepare_prediction_features_eq.
    assert (set_preprocessor (preprocessor w) w = w) as -> by by destruct w.
    f_equal. destruct (prepare_features [features]) as [df|e]; [|done].
    cbn [rbind]. by rewrite transform_unfitted.
Qed.

(** *** train_new_model *)

(** C7.  When the data source yields fewer than 10 labelled rows,
    [train_new_model] raises "Insufficient training data" and leaves the
    manager, the files and the preprocessor as they were. *)
Theorem train_new_model_insufficient_data (model_type : option string)
    (hyperparameters : option (gmap string param)) (data_limit : option nat)
    (mgr : ModelManager) (w : World) :
  let n := length (training_rows data_limit (ml_features w)) in
  (n < 10)%nat ->
  fetch_training_data data_limit w = (Ok (training_rows data_limit (ml_features w)), w) /\
  train_new_model settings model_type hyperparameters data_limit (mgr, w)
  = (Raise (ValueError ("Insufficient training data: " +:+ pretty n +:+ " samples")),
     (mgr, w)).
Proof.
  intros n Hn. split; [done|].
  unfold train_new_model, bind, on_world, zoom, fetch_training_data. cbn [fst snd].
  fold n. apply Nat.ltb_lt in Hn. by rewrite Hn.
Qed.

(** *** prepare_training_data *)

Lemma prepare_features_Raise data e :
  prepare_features data = Raise e ->
  e = TypeError "cannot convert a missing value to int".
Proof.
  intros Hprep.
  pose proof (for_each_bool_step bool_columns (pd_DataFrame data) NoDup_bool_columns)
    as Hb.
  destruct (for_each bool_step bool_columns (pd_DataFrame data)) as [df1|e'] eqn:H1.
  - by rewrite (prepare_features_select data df1 H1) in Hprep.
  - unfold prepare_features in Hprep. rewrite H1 in Hprep. cbn [rbind] in Hprep.
    injection Hprep as ->. destruct Hb as (f & s & _ & _ & Hs).
    apply map_result_Raise in Hs as (v & _ & Hv). destruct v; simpl in Hv; congruence.
Qed.

Lemma prepare_training_data_eq data self :
  prepare_training_data data self
  = if decide ("target_speed_kmh" ∈ batch_keys data) then
      match prepare_features data with
      | Raise e => (Raise e, self)
      | Ok X_df =>
          (rbind (fit_transform X_df self).1
                 (fun X => Ok (X, cells_of "target_speed_kmh" data)),
           (fit_transform X_df self).2)
      end
    else (Raise (ValueError "Training data must contain target_speed_kmh"), self).
Proof.
  unfold prepare_training_data. rewrite df_get_pd_DataFrame.
  case_decide; [|done].
  unfold bind, lift, ret. destruct (prepare_features data) as [X_df|e]; [|done].
  by destruct (fit_transform X_df self) as [[X|e] self'].
Qed.

(** C3, as the code has it.  [prepare_training_data] raises "Training data
    must contain target_speed_kmh" exactly when no record of the batch has
    the key, and then leaves the preprocessor as it was.  Otherwise it goes
    on with [prepare_features] and [fit_transform]; when it returns [(X, y)],
    [y] has one entry per record, the record's raw target or null, and [X]
    is [fit_transform] of [prepare_features] of the batch. *)
Theorem prepare_training_data_target_column (data : list record)
    (self : FeaturePreprocessor) :
  let missing := ValueError "Training data must contain target_speed_kmh" in
  ((prepare_training_data data self).1 = Raise missing
   <-> ~ occurs "target_speed_kmh" data) /\
  (~ occurs "target_speed_kmh" data ->
   prepare_training_data data self = (Raise missing, self)) /\
  (occurs "target_speed_kmh" data ->
   prepare_training_data data self
   = match prepare_features data with
     | Raise e => (Raise e, self)
     | Ok X_df =>
         (rbind (fit_transform X_df self).1
                (fun X => Ok (X, cells_of "target_speed_kmh" data)),
          (fit_transform X_df self).2)
     end) /\
  (forall X y self',
     prepare_training_data data self = (Ok (X, y), self') ->
     y = cells_of "target_speed_kmh" data /\ length y = length data /\
     exists X_df, prepare_features data = Ok X_df /\
                  fit_transform X_df self = (Ok X, self')).
Proof.
  intros missing. rewrite prepare_training_data_eq.
  case_decide as Hocc; rewrite elem_of_batch_keys in Hocc.
  - split; [|split; [done|split; [done|]]].
    + split; [|done]. intros Hraise. exfalso.
      destruct (prepare_features data) as [X_df|e] eqn:Hprep.
      * destruct (fit_transform X_df self) as [[X|e] self'] eqn:Hft; [done|].
        cbn [fst rbind] in Hraise. injection Hraise as ->.
        by destruct (fit_transform_Raise _ _ _ _ Hft) as [[? ?]|[? ?]].
      * cbn [fst] in Hraise. injection Hraise as ->.
        by apply prepare_features_Raise in Hprep.
    + intros X y self'. destruct (prepare_features data) as [X_df|e]; [|done].
      destruct (fit_transform X_df self) as [[X'|e] self''] eqn:Hft; [|done].
      cbn [fst snd rbind]. intros [= <- <- <-].
      split; [done|]. split; [apply length_cells_of|]. by exists X_df.
  - split; [done|]. split; [done|]. split; [done|]. done.
Qed.
End ServiceProperties.

(** ** The service on sample data *)

(** Twelve labelled rows: training re-fits the scaler, writes both files and
    installs the model; a prediction then answers the regressor's number
    and its congestion level. *)
Example train_new_model_on_twelve_rows :
  let s := (train_new_model default_settings None None None
              (ModelManager_init, Demo.fresh_world Demo.twelve_rows)).2 in
  is_Some (current_model s.1) /\
  is_fitted (preprocessor s.2) = true /\
  dom (disk s.2) = {[ "./models/traffic_model.pkl"; "./models/scaler.pkl" ]} /\
  (ModelManager_predict (Demo.row 5 0) s).1 = Ok ((71 # 2)%Q, "moderate") /\
  (ModelManager_predict (<["max_speed_kmh" := VNone]> (Demo.row 5 0)) s).1
  = Raise (TypeError "unsupported operand type(s) for /: 'float' and 'NoneType'").
Proof.
  cbv zeta. split; [vm_compute; by eexists|]. split; [by vm_compute|].
  split; [by_computation|]. split; by vm_compute.
Qed.

(** An unsupported kind is refused by [_create_model], after the scaler has
    been re-fitted and before anything is written or installed. *)
Example train_new_model_unsupported_kind :
  let r := train_new_model default_settings (Some "svm") None None
             (ModelManager_init, Demo.fresh_world Demo.twelve_rows) in
  r.1 = Raise (ValueError "Unsupported model type: svm") /\
  current_model r.2.1 = None /\ disk r.2.2 = ∅ /\
  is_fitted (preprocessor r.2.2) = true.
Proof. cbv zeta. repeat split; by vm_compute. Qed.

(** What [save] wrote, [load_model] reads back in a fresh process. *)
Example save_then_load_model :
  let s := (train_new_model default_settings None None None
              (ModelManager_init, Demo.fresh_world Demo.twelve_rows)).2 in
  let w := {| preprocessor := FeaturePreprocessor_init; disk := disk s.2;
              ml_features := []; clock := 50 |} in
  let r := load_model default_settings None (ModelManager_init, w) in
  current_model r.2.1 = current_model s.1 /\
  preprocessor r.2.2 = preprocessor s.2.
Proof. cbv zeta. split; by vm_compute. Qed.

(** A [NaN] speed falls through to "severe", an infinite one is "low". *)
Example encode_congestion_level_nan :
  encode_congestion_level nan 60 = "severe" /\
  encode_congestion_level infinity 60 = "low".
Proof. split; by vm_compute. Qed.

(** ** The statements on sample data *)

(** C1, the statement as the design document has it, fails: a record whose
    [hour_of_day] is null gives a matrix with a null cell, since no default
    is applied to the temporal features. *)
Lemma prepare_features_null_cell :
  rbind (prepare_features [Demo.without_hour]) (fun df => Ok (df_values df))
  = Ok [[VNone; VNum 2; VNum 14; VNum 11; VNum 1; VNum 0; VNum 38.5; VNum 0;
         VNum 0; VNum 30; VNum 0; VNum 0; VNum 0; VNum 0; VNum 0; VNum 0;
         VNum 0; VNum 0; VNum 0; VNum 3; VNum 60; VNum 1; VNum 0; VNum 0]] /\
  ~ (forall df row c,
       prepare_features [Demo.without_hour] = Ok df ->
       row ∈ df_values df -> c ∈ row -> isna c = false).
Proof.
  split; [by vm_compute|]. intros Hclaim.
  assert (exists df, prepare_features [Demo.without_hour] = Ok df /\
                     df_values df !! 0%nat ≫= (.!! 0%nat) = Some VNone)
    as (df & Hprep & Hcell).
  { eexists. split; vm_compute; reflexivity. }
  destruct (df_values df !! 0%nat) as [row|] eqn:Hrow; [|done]. simpl in Hcell.
  assert (isna VNone = false); [|done].
  eapply (Hclaim df row); [done|..]; eapply list_elem_of_lookup_2; done.
Qed.

(** C1 as the code has it, on two sample rows: [temperature] is null in both
    and filled, no Boolean and no temporal value is null, and the frame has
    no null cell. *)
Lemma prepare_features_matrix_witness :
  exists df,
    prepare_features [Demo.row 8 41; Demo.row 9 35.5] = Ok df /\
    index df = 2%nat /\
    (columns df).*1 = FEATURE_ORDER /\
    forall f s c, (f, s) ∈ columns df -> c ∈ s -> isna c = false.
Proof.
  assert (forall cols,
            Forall (fun r => Forall (fun f => isna (value r f) = false) cols)
                   [Demo.row 8 41; Demo.row 9 35.5] ->
            forall f r, f ∈ cols -> r ∈ [Demo.row 8 41; Demo.row 9 35.5] ->
              isna (value r f) = false) as Hcells.
  { intros cols Hall f r Hf Hr. rewrite Forall_forall in Hall.
    specialize (Hall r Hr). rewrite Forall_forall in Hall. exact (Hall f Hf). }
  destruct (prepare_features_matrix [Demo.row 8 41; Demo.row 9 35.5])
    as [Hret Hprop].
  destruct Hret as [df Hdf].
  { intros f r Hf _ Hr. apply (Hcells bool_columns); [|exact Hf|exact Hr].
    apply (bool_decide_unpack _). vm_compute. exact I. }
  exists df. split; [exact Hdf|].
  destruct (Hprop df Hdf) as ((Hidx & Hnames & _) & _ & Hnull).
  split; [exact Hidx|]. split; [exact Hnames|]. apply Hnull.
  - intros f r Hf _ Hr. apply (Hcells unfilled_columns); [|exact Hf|exact Hr].
    apply (bool_decide_unpack _). vm_compute. exact I.
  - intros _. exists (Demo.row 8 41).
    split; [apply list_elem_of_here|vm_compute; reflexivity].
Defined.

(** C3, the statement as the design document has it, fails: a batch in which
    one record has no [target_speed_kmh] is accepted, and its target vector
    has a null entry. *)
Lemma prepare_training_data_accepts_unlabelled_record :
  Demo.unlabelled 9 !! "target_speed_kmh" = None /\
  exists X self',
    prepare_training_data [Demo.row 8 41; Demo.unlabelled 9] FeaturePreprocessor_init
    = (Ok (X, [VNum 41; VNone]), self').
Proof. split; [by vm_compute|]. eexists _, _. by vm_compute. Qed.

(** C6 on sample data: a frame of two records, fitted and transformed, then
    transformed again. *)
Lemma fit_transform_then_transform_witness :
  fit_transform Demo.sample_frame FeaturePreprocessor_init
  = (Ok Demo.sample_scaled, Demo.sample_fitted) /\
  transform Demo.sample_frame Demo.sample_fitted
  = (Ok Demo.sample_scaled, Demo.sample_fitted).
Proof.
  assert (fit_transform Demo.sample_frame FeaturePreprocessor_init
          = (Ok Demo.sample_scaled, Demo.sample_fitted)) as Hfit
    by (vm_compute; reflexivity).
  split; [exact Hfit|].
  exact (fit_transform_then_transform Demo.sample_frame FeaturePreprocessor_init
           Demo.sample_fitted Demo.sample_scaled Hfit).
Defined.

(** C7 on sample data: a table with five labelled rows. *)
Lemma train_new_model_insufficient_data_witness :
  length (training_rows None (ml_features (Demo.fresh_world Demo.five_rows))) = 5%nat /\
  train_new_model default_settings None None None
    (ModelManager_init, Demo.fresh_world Demo.five_rows)
  = (Raise (ValueError "Insufficient training data: 5 samples"),
     (ModelManager_init, Demo.fresh_world Demo.five_rows)).
Proof.
  split; [vm_compute; reflexivity|].
  refine (proj2 (train_new_model_insufficient_data default_settings None None None
                   ModelManager_init (Demo.fresh_world Demo.five_rows) _)).
  vm_compute. lia.
Defined.

(** C8, the statement as the design document has it, fails: on a model that
    was never trained nor loaded the call returns, with the empty mapping. *)
Lemma get_feature_importance_unfitted_returns :
  (get_feature_importance (TrafficPredictionModel_init "lightgbm")).1 = Ok ∅ /\
  ~ exists e,
      (get_feature_importance (TrafficPredictionModel_init "lightgbm")).1 = Raise e.
Proof. split; [done|]. by intros [e He]. Qed.

(** C8 as the code has it, on a model that was just constructed. *)
Lemma get_feature_importance_unfitted_witness :
  model (TrafficPredictionModel_init "xgboost") = None /\
  get_feature_importance (TrafficPredictionModel_init "xgboost")
  = (Ok ∅, TrafficPredictionModel_init "xgboost").
Proof.
  split; [reflexivity|].
  apply (get_feature_importance_unfitted (TrafficPredictionModel_init "xgboost")).
  reflexivity.
Defined.

(** C10 on sample data: the model file of [Demo.stored] and no scaler file. *)
Lemma load_without_scaler_file_witness :
  disk Demo.world_with_model_file !! s_feature_scaler_path default_settings = None /\
  is_fitted (preprocessor Demo.world_with_model_file) = false /\
  load default_settings None
    (TrafficPredictionModel_init "lightgbm", Demo.world_with_model_file)
  = (Ok tt,
     ({| model_type := "xgboost"; model := Some 42%Q; metrics := Some 3%nat;
         trained_at := Some 17%nat; training_samples := 80; test_samples := 20;
         model_version := "1.0.0" |}, Demo.world_with_model_file)).
Proof.
  assert (disk Demo.world_with_model_file !! s_feature_scaler_path default_settings
          = None) as Hscaler by (vm_compute; reflexivity).
  split; [exact Hscaler|]. split; [reflexivity|].
  refine (proj1 (load_without_scaler_file default_settings None
                   (TrafficPredictionModel_init "lightgbm")
                   Demo.world_with_model_file Demo.stored 42%Q _ _ Hscaler)).
  - vm_compute; reflexivity.
  - reflexivity.
Defined.
